(** * PMBM core: Bernoulli components and the Poisson intensity

    A shallow embedding of
    [mot/trackers/multiple_object_trackers/PMBM/common/bernoulli.py] and
    [mot/trackers/multiple_object_trackers/PMBM/common/poisson_point_process.py].

    Embedded are [Bernoulli] with its four methods and [PoissonRFS] with
    [get_targets_detected_for_first_time], [detected_update],
    [undetected_update], [prune], [predict], [birth], [gating] and
    [__len__]; the [__repr__] methods are left out.

    Python's exceptions are an error type, in-place mutation is explicit
    state passing, numpy arrays are a shape together with row-major data,
    and IEEE doubles are the reals extended with [-inf], [+inf] and [nan]
    (rounding and overflow are abstracted away, the special values are
    kept because the code produces them through [np.log] and compares
    against them in [prune]). *)

From Stdlib Require Import Reals Lra Lia.
From stdpp Require Import gmap strings list.

(** ** Python: exceptions, results, names and argument binding *)

Module Py.

Inductive exn : Type :=
| TypeError
| NameError
| ZeroDivisionError
| AssertionError
| IndexError
| ValueError.

Inductive result (A : Type) : Type :=
| Ok (a : A)
| Raise (e : exn).
Global Arguments Ok {A} a.
Global Arguments Raise {A} e.

#[global] Instance result_ret : MRet result := fun A a => Ok a.
#[global] Instance result_bind : MBind result := fun A B f m =>
  match m with
  | Ok a => f a
  | Raise e => Raise e
  end.
#[global] Instance result_fmap : FMap result := fun A B f m =>
  match m with
  | Ok a => Ok (f a)
  | Raise e => Raise e
  end.

(** A method that mutates [self]: the state after the call is there also
    when the call raises, as in Python. *)
Definition M (S A : Type) : Type := S -> result A * S.

#[global] Instance M_ret S : MRet (M S) := fun A a s => (Ok a, s).
#[global] Instance M_bind S : MBind (M S) := fun A B f m s =>
  match m s with
  | (Ok a, s') => f a s'
  | (Raise e, s') => (Raise e, s')
  end.

Definition get {S} : M S S := fun s => (Ok s, s).
Definition put {S} (s : S) : M S unit := fun _ => (Ok tt, s).
Definition lift {S A} (r : result A) : M S A := fun s => (r, s).

(** [assert c] *)
Definition assert (c : bool) : result unit :=
  if c then Ok tt else Raise AssertionError.

(** Name resolution: the local frame first, then the names bound at
    module level; a name bound in neither raises [NameError]. *)
Definition load_name {V} (x : string) (frame globals : list (string * V)) : result V :=
  match (list_to_map frame : gmap string V) !! x with
  | Some v => Ok v
  | None =>
      match (list_to_map globals : gmap string V) !! x with
      | Some v => Ok v
      | None => Raise NameError
      end
  end.

(** Binding the arguments of a call [f(a1, ..., ak, n1=v1, ..., nj=vj)] to
    the parameters of [def f(p1, ..., pn)] (no defaults, no [*args] and no
    [**kwargs]): positional arguments fill the parameters from the left;
    a keyword that names no parameter, or one already filled, is a
    [TypeError]; so is a parameter left without a value. *)
Fixpoint bind_positional {V} (params : list string) (args : list V)
  : result (list (string * V) * list string) :=
  match args, params with
  | [], _ => Ok ([], params)
  | _ :: _, [] => Raise TypeError
  | a :: args', p :: params' =>
      '(bound, rest) ← bind_positional params' args';
      Ok ((p, a) :: bound, rest)
  end.

Fixpoint bind_keywords {V} (rest : list string) (kwargs : list (string * V))
  : result (list (string * V) * list string) :=
  match kwargs with
  | [] => Ok ([], rest)
  | (k, v) :: kwargs' =>
      if bool_decide (k ∈ rest)
      then
        let rest := List.filter (fun p => negb (String.eqb p k)) rest in
        '(bound, rest') ← bind_keywords rest kwargs';
        Ok ((k, v) :: bound, rest')
      else Raise TypeError
  end.

Definition bind_arguments {V} (params : list string) (args : list V)
  (kwargs : list (string * V)) : result (gmap string V) :=
  '(pos, rest) ← bind_positional params args;
  '(kw, missing) ← bind_keywords rest kwargs;
  match missing with
  | [] => Ok (list_to_map (pos ++ kw))
  | _ :: _ => Raise TypeError
  end.

End Py.
Export Py.

(** ** Floating-point numbers

    A double is a real number or one of the three special values.  The
    arithmetic on finite values is the arithmetic of the reals; the special
    values follow IEEE 754 (signed zeros are not distinguished). *)

Module Float.

Inductive float : Type :=
| NaN
| NInf
| Fin (x : R)
| PInf.

#[global] Instance Rlt_decision : RelDecision Rlt := Rlt_dec.
#[global] Instance Rle_decision : RelDecision Rle := Rle_dec.
#[global] Instance R_eq_decision : EqDecision R := Req_dec_T.

#[global] Instance float_eq_decision : EqDecision float.
Proof. solve_decision. Defined.

Definition is_finite (a : float) : bool :=
  match a with Fin _ => true | _ => false end.

(** Finite or [-inf]: the values a log-weight may take. *)
Definition is_log_value (a : float) : bool :=
  match a with Fin _ | NInf => true | _ => false end.

Definition fneg (a : float) : float :=
  match a with
  | NaN => NaN
  | NInf => PInf
  | Fin x => Fin (- x)
  | PInf => NInf
  end.

Definition fadd (a b : float) : float :=
  match a, b with
  | NaN, _ | _, NaN => NaN
  | PInf, NInf | NInf, PInf => NaN
  | PInf, _ | _, PInf => PInf
  | NInf, _ | _, NInf => NInf
  | Fin x, Fin y => Fin (x + y)
  end.

Definition fsub (a b : float) : float := fadd a (fneg b).

(** The product of an infinity with a finite [x]: the infinity with the
    sign of the product, [nan] when [x] is zero. *)
Definition scale_inf (x : R) (inf : float) : float :=
  if decide (0 < x)%R then inf
  else if decide (x < 0)%R then fneg inf
  else NaN.

Definition fmul (a b : float) : float :=
  match a, b with
  | NaN, _ | _, NaN => NaN
  | Fin x, Fin y => Fin (x * y)
  | Fin x, inf | inf, Fin x => scale_inf x inf
  | PInf, PInf | NInf, NInf => PInf
  | PInf, NInf | NInf, PInf => NaN
  end.

(** [a / b] on Python floats: a zero divisor raises [ZeroDivisionError],
    whatever the dividend. *)
Definition truediv (a b : float) : result float :=
  match b with
  | Fin y =>
      if decide (y = 0%R) then Raise ZeroDivisionError
      else Ok match a with
              | Fin x => Fin (x / y)
              | NaN => NaN
              | inf => scale_inf y inf
              end
  | NaN => Ok NaN
  | PInf | NInf =>
      Ok match a with
         | Fin _ => Fin 0
         | _ => NaN
         end
  end.

(** The two Python types that a double of this program has: a literal
    such as [1.0] is a [float], what numpy hands back ([np.exp], [np.log],
    an element of an array) is a [numpy.float64], as is the existence
    probability that [PoissonRFS.detected_update] stores.  Both are written
    as a [float] here; they differ in [/] alone. *)
Inductive scalar_type : Type :=
| PythonFloat
| NumpyFloat64.

(** [a / b] on [numpy.float64]: IEEE division, nothing is raised (numpy
    warns): [0 / 0] is [nan] and [x / 0] an infinity.  Zero has no sign
    here; the infinity takes the sign of the dividend. *)
Definition np_true_divide (a b : float) : float :=
  match b with
  | Fin y =>
      if decide (y = 0%R)
      then match a with
           | Fin x => scale_inf x PInf
           | NaN => NaN
           | inf => inf
           end
      else match a with
           | Fin x => Fin (x / y)
           | NaN => NaN
           | inf => scale_inf y inf
           end
  | NaN => NaN
  | PInf | NInf =>
      match a with
      | Fin _ => Fin 0
      | _ => NaN
      end
  end.

(** [a / b] as Python dispatches it: [numpy.float64] division as soon as
    one operand is a [numpy.float64], [float] division otherwise. *)
Definition divide (operands : scalar_type) (a b : float) : result float :=
  match operands with
  | PythonFloat => truediv a b
  | NumpyFloat64 => Ok (np_true_divide a b)
  end.

(** [a > b]; false as soon as one side is [nan]. *)
Definition fgt (a b : float) : bool :=
  match a, b with
  | NaN, _ | _, NaN => false
  | _, PInf => false
  | PInf, _ => true
  | NInf, _ => false
  | Fin _, NInf => true
  | Fin x, Fin y => bool_decide (y < x)%R
  end.

(** [np.log]: [-inf] at zero and [nan] below (numpy warns, it does not
    raise). *)
Definition np_log (a : float) : float :=
  match a with
  | Fin x =>
      if decide (0 < x)%R then Fin (ln x)
      else if decide (x = 0%R) then NInf
      else NaN
  | PInf => PInf
  | NInf | NaN => NaN
  end.

(** [np.exp] *)
Definition np_exp (a : float) : float :=
  match a with
  | Fin x => Fin (exp x)
  | NInf => Fin 0
  | PInf => PInf
  | NaN => NaN
  end.

Definition fsum (l : list float) : float := foldr fadd (Fin 0) l.

(** [scipy.special.logsumexp]: the logarithm of the sum of the
    exponentials.  (scipy shifts by the maximum before exponentiating; on
    the reals the value is the same.) *)
Definition logsumexp (l : list float) : float := np_log (fsum (np_exp <$> l)).

(** The range of a probability. *)
Definition in_unit_interval (a : float) : Prop :=
  match a with
  | Fin x => (0 <= x <= 1)%R
  | _ => False
  end.

End Float.
Export Float.

Declare Scope float_scope.
Delimit Scope float_scope with float.
Bind Scope float_scope with float.
Infix "+" := fadd : float_scope.
Infix "-" := fsub : float_scope.
Infix "*" := fmul : float_scope.
Notation "- a" := (fneg a) : float_scope.

(** ** numpy arrays

    An array is its shape and its elements in row-major order, so that
    [np.squeeze] and indexing by a boolean array act on arrays of any
    dimension, the 0-dimensional ones included. *)

Module Np.

Record ndarray (A : Type) : Type := mk_ndarray {
  shape : list nat;
  data : list A
}.
Global Arguments mk_ndarray {A} _ _.
Global Arguments shape {A} _.
Global Arguments data {A} _.

(** The number of elements of an array of shape [s]. *)
Definition size_of (s : list nat) : nat := foldr Nat.mul 1 s.

Definition well_shaped {A} (a : ndarray A) : Prop :=
  length (data a) = size_of (shape a).

Definition scalar {A} (x : A) : ndarray A := mk_ndarray [] [x].
Definition vector {A} (l : list A) : ndarray A := mk_ndarray [length l] l.

(** [len(a)]: the extent of the first axis; a 0-dimensional array has no
    length. *)
Definition len {A} (a : ndarray A) : result nat :=
  match shape a with
  | [] => Raise TypeError
  | n :: _ => Ok n
  end.

(** An operation applied to every element, as [a > t] or [a += c] with a
    scalar on the right. *)
Definition elementwise {A B} (f : A -> B) (a : ndarray A) : ndarray B :=
  mk_ndarray (shape a) (f <$> data a).

(** [np.squeeze(a)]: every axis of extent 1 is dropped. *)
Definition np_squeeze {A} (a : ndarray A) : ndarray A :=
  mk_ndarray (List.filter (fun n => negb (n =? 1)) (shape a)) (data a).

Definition count_true (mask : list bool) : nat :=
  length (List.filter (fun b : bool => b) mask).

(** The rows of extent [row] of [d] selected by [mask]. *)
Fixpoint take_rows {A} (mask : list bool) (row : nat) (d : list A) : list A :=
  match mask with
  | [] => []
  | b :: mask' =>
      (if b then take row d else []) ++ take_rows mask' row (drop row d)
  end.

(** [a[mask]] for a boolean array [mask] of [k] dimensions: the shape of
    [mask] must be the first [k] extents of [a] ([IndexError] otherwise);
    the result has one leading axis, of extent the number of [True]s, in
    place of these [k].  With [k = 0] the whole of [a] is one row: [a[True]]
    has shape [1 :: shape a] and [a[False]] has shape [0 :: shape a]. *)
Definition getitem_mask {A} (a : ndarray A) (mask : ndarray bool)
  : result (ndarray A) :=
  if bool_decide (shape mask `prefix_of` shape a)
  then
    let rest := drop (length (shape mask)) (shape a) in
    Ok (mk_ndarray (count_true (data mask) :: rest)
                   (take_rows (data mask) (size_of rest) (data a)))
  else Raise IndexError.

(** Broadcasting: shapes are aligned at their last axes; two extents are
    compatible when they are equal or one of them is 1. *)
Fixpoint broadcast_rev (s1 s2 : list nat) : option (list nat) :=
  match s1, s2 with
  | [], s | s, [] => Some s
  | n :: s1', m :: s2' =>
      r ← broadcast_rev s1' s2';
      if decide (n = m) then Some (n :: r)
      else if decide (n = 1) then Some (m :: r)
      else if decide (m = 1) then Some (n :: r)
      else None
  end.

Definition broadcast_shapes (s1 s2 : list nat) : option (list nat) :=
  reverse <$> broadcast_rev (reverse s1) (reverse s2).

Fixpoint chunks {A} (row n : nat) (d : list A) : list (list A) :=
  match n with
  | 0 => []
  | S n' => take row d :: chunks row n' (drop row d)
  end.

(** The elements of an array of shape [s] repeated to the shape [t], both
    of the same number of axes. *)
Fixpoint expand {A} (s t : list nat) (d : list A) : list A :=
  match s, t with
  | n :: s', m :: t' =>
      if decide (n = m)
      then concat (expand s' t' <$> chunks (size_of s') n d)
      else concat (replicate m (expand s' t' d))
  | _, _ => d
  end.

Definition broadcast_to {A} (t : list nat) (a : ndarray A) : list A :=
  expand (replicate (length t - length (shape a)) 1 ++ shape a) t (data a).

(** A binary operation on two arrays, as [a + b]. *)
Definition broadcast2 {A B C} (f : A -> B -> C) (a : ndarray A) (b : ndarray B)
  : result (ndarray C) :=
  match broadcast_shapes (shape a) (shape b) with
  | Some t => Ok (mk_ndarray t (zip_with f (broadcast_to t a) (broadcast_to t b)))
  | None => Raise ValueError
  end.

(** [np.concatenate((a, b))] along the first axis. *)
Definition np_concatenate {A} (a b : ndarray A) : result (ndarray A) :=
  match shape a, shape b with
  | n :: s, m :: t =>
      if decide (s = t)
      then Ok (mk_ndarray (n + m :: s) (data a ++ data b))
      else Raise ValueError
  | _, _ => Raise ValueError
  end.

End Np.
Export Np.

(** ** The collaborators

    The spatial densities, the motion and measurement models and the
    Kalman engine are not part of the two modules; they are taken as
    parameters.  [MeasModel] is whatever a caller passes as [meas_model]:
    Python checks nothing before [isinstance] does. *)

Class Collaborators : Type := {
  Gaussian : Type;
  MotionModel : Type;
  MeasModel : Type;
  Observation : Type;
  Components : Type;
  KalmanGain : Type;
  isinstance_MeasurementModel : MeasModel -> bool
}.

Section Mixture.
Context `{Collaborators}.

(** [GaussianMixtureNumpy]: three arrays side by side, one row per
    component. *)
Record GaussianMixtureNumpy : Type := {
  means : ndarray float;
  covs : ndarray float;
  weigths_log : ndarray float
}.

(** The density engine, [GaussianDensity] or whatever is passed as
    [density].  [predict] is used on one state by [Bernoulli.predict] and on
    the arrays of a whole mixture by [PoissonRFS.predict]. *)
Record DensityEngine : Type := {
  density_predict : Gaussian -> MotionModel -> float -> Gaussian;
  density_predict_arrays :
    ndarray float -> ndarray float -> MotionModel -> float ->
    ndarray float * ndarray float;
  density_update : Gaussian -> Observation -> MeasModel -> Gaussian;
  predict_loglikelihood : Gaussian -> list Observation -> MeasModel -> ndarray float;
  numpy_get_Kalman_gain :
    GaussianMixtureNumpy -> MeasModel -> KalmanGain * KalmanGain * KalmanGain;
  numpy_get_Kalman_gain_raises : GaussianMixtureNumpy -> MeasModel -> option exn;
  update_states_with_likelihoods_by_single_measurement :
    GaussianMixtureNumpy -> Observation -> MeasModel -> Components * ndarray float;
  moment_matching_vectorized : ndarray float -> Components -> Gaussian
}.

(** A call of [numpy_get_Kalman_gain].  The operations of the engine are
    total on a [MeasurementModel]; this one is also called with a
    [meas_model] that nothing has checked, and then raises what
    [numpy_get_Kalman_gain_raises] says, if anything. *)
Definition call_numpy_get_Kalman_gain (density : DensityEngine)
  (mixture : GaussianMixtureNumpy) (meas_model : MeasModel)
  : result (KalmanGain * KalmanGain * KalmanGain) :=
  if isinstance_MeasurementModel meas_model
  then Ok (numpy_get_Kalman_gain density mixture meas_model)
  else match numpy_get_Kalman_gain_raises density mixture meas_model with
       | Some e => Raise e
       | None => Ok (numpy_get_Kalman_gain density mixture meas_model)
       end.

(** The values passed to a constructor. *)
Inductive value : Type :=
| VGaussian (g : Gaussian)
| VFloat (x : float)
| VObject.

(** The parallel-array invariant: the three arrays have a first axis, of
    the same extent. *)
Definition parallel_arrays (m : GaussianMixtureNumpy) : Prop :=
  exists n, len (means m) = Ok n /\ len (covs m) = Ok n /\ len (weigths_log m) = Ok n.

(** Modelled from the spec: [GaussianMixtureNumpy.__len__] ([mot.common] is
    not among the sources).  "[size] = component count"; the count is read
    off the log-weights. *)
Definition GaussianMixtureNumpy__len__ (m : GaussianMixtureNumpy) : result nat :=
  len (weigths_log m).

(** Modelled from the spec: [GaussianMixtureNumpy.__iadd__] ([mot.common] is
    not among the sources).  "appends a caller-supplied mixture [...] to the
    current intensity by concatenation". *)
Definition GaussianMixtureNumpy__iadd__ (m new_components : GaussianMixtureNumpy)
  : result GaussianMixtureNumpy :=
  ms ← np_concatenate (means m) (means new_components);
  cs ← np_concatenate (covs m) (covs new_components);
  ws ← np_concatenate (weigths_log m) (weigths_log new_components);
  Ok {| means := ms; covs := cs; weigths_log := ws |}.

(** Modelled from the spec: [normalize_log_weights] ([mot.common] is not
    among the sources).  "Normalize these log-weights (log-domain softmax)
    [...] Record the pre-normalization log-sum ([log_sum])". *)
Definition normalize_log_weights (log_weights : ndarray float)
  : ndarray float * float :=
  let log_sum := logsumexp (data log_weights) in
  (elementwise (fun w => (w - log_sum)%float) log_weights, log_sum).

End Mixture.

(** ** [class Bernoulli] *)

Module Bernoulli.
Section Bernoulli.
Context `{Collaborators}.

Record t : Type := mk {
  state : Gaussian;
  existence_probability : float
}.

(** [def __init__(self, state: Gaussian, existence_probability: float)].
    The embedding is typed by the annotations: a value of another type for
    one of the two parameters is refused. *)
Definition __init__params : list string := ["state"; "existence_probability"].

Definition __init__ (args : list value) (kwargs : list (string * value)) : result t :=
  frame ← bind_arguments __init__params args kwargs;
  match frame !! "state", frame !! "existence_probability" with
  | Some (VGaussian g), Some (VFloat r) => Ok (mk g r)
  | _, _ => Raise TypeError
  end.

(** The names bound at module level in [bernoulli.py] (the builtins are
    left out: none of them is looked up here). *)
Definition module_globals : list (string * value) :=
  (fun x => (x, VObject)) <$>
  ["dataclass"; "List"; "Tuple"; "np"; "GaussianDensity"; "Gaussian";
   "MeasurementModel"; "MotionModel"; "SingleTargetHypothesis"; "Track";
   "Bernoulli"].

(** [Bernoulli.predict]: the state is the object the method is called on. *)
Definition predict (motion_model : MotionModel) (survival_probability : float)
  (density : DensityEngine) (dt : float) : M t t :=
  self ← get;
  let next_existence_probability :=
    (survival_probability * existence_probability self)%float in
  put (mk (density_predict density (state self) motion_model dt)
          (existence_probability self));;
  next_state ← lift (load_name "next_state"
    [("self", VObject); ("motion_model", VObject);
     ("survival_probability", VFloat survival_probability);
     ("density", VObject); ("dt", VFloat dt);
     ("next_existence_probability", VFloat next_existence_probability)]
    module_globals);
  predicted_bern ← lift (__init__ [next_state; VFloat next_existence_probability] []);
  mret predicted_bern.

(** [Bernoulli.undetected_update]; [self] is only read.  [numbers] is the
    Python type of the operands of the division: [NumpyFloat64] as soon as
    [self.existence_probability] or [detection_probability] is one, which
    makes dividend and divisor [numpy.float64] too. *)
Definition undetected_update (numbers : scalar_type) (self : t)
  (detection_probability : float) : result (t * float) :=
  let missdetecion_probability := (Fin 1 - detection_probability)%float in
  posterior_existence_probability ←
    divide numbers
      (existence_probability self * (Fin 1 - detection_probability))%float
      (Fin 1 - existence_probability self
       + existence_probability self * (Fin 1 - detection_probability))%float;
  posterior_bern ←
    __init__ [] [("initial_state", VGaussian (state self));
                 ("existence_probability", VFloat posterior_existence_probability)];
  let likelihood_predicted :=
    (Fin 1 - existence_probability self
     + existence_probability self * missdetecion_probability)%float in
  let log_likelihood_predicted := np_log likelihood_predicted in
  Ok (posterior_bern, log_likelihood_predicted).

(** [Bernoulli.detected_update_likelihood] *)
Definition detected_update_likelihood (self : t) (measurements : list Observation)
  (meas_model : MeasModel) (detection_probability : float)
  (density : DensityEngine) : result (ndarray float) :=
  assert (isinstance_MeasurementModel meas_model);;
  let log_likelihood_detected :=
    elementwise (fun l => (l + np_log detection_probability
                           + np_log (existence_probability self))%float)
      (predict_loglikelihood density (state self) measurements meas_model) in
  Ok log_likelihood_detected.

(** [Bernoulli.detected_update_state], a static method. *)
Definition detected_update_state (bern : t) (z : Observation)
  (meas_model : MeasModel) (density : DensityEngine) : result t :=
  assert (isinstance_MeasurementModel meas_model);;
  let updated_density := density_update density (state bern) z meas_model in
  update_bern ←
    __init__ [] [("state", VGaussian updated_density);
                 ("existence_probability", VFloat (Fin 1))];
  Ok update_bern.

End Bernoulli.
End Bernoulli.

(** ** Hypotheses and tracks *)

Section Tracks.
Context `{Collaborators}.

(** Modelled from the spec: [SingleTargetHypothesis]
    ([single_target_hypothesis.py] is not among the sources): the record
    "[{bernoulli, log_likelihood, cost, meas_idx, sth_id}]". *)
Record SingleTargetHypothesis : Type := {
  bernoulli : Bernoulli.t;
  log_likelihood : float;
  cost : float;
  meas_idx : nat;
  sth_id : nat
}.

(** Modelled from the spec: [Track] and its factory [Track.from_sth]
    ([track.py] is not among the sources).  A track "wraps a hypothesis into
    the externally-managed hypothesis tree" and is filed under a
    "newly-assigned track identifier": one that no earlier track was given.
    The state of the factory is the set of identifiers already assigned. *)
Record Track : Type := {
  track_id : nat;
  single_target_hypotheses : gmap nat SingleTargetHypothesis
}.

Definition Track_from_sth (sth : SingleTargetHypothesis) : M (gset nat) Track :=
  assigned ← get;
  let new_id := fresh assigned in
  put ({[new_id]} ∪ assigned);;
  mret {| track_id := new_id;
          single_target_hypotheses := {[sth_id sth := sth]} |}.

(** The hypotheses of a collection of tracks, and their measurement
    indices. *)
Definition hypotheses (tracks : gmap nat Track) : list SingleTargetHypothesis :=
  '(_, track) ← map_to_list tracks;
  snd <$> map_to_list (single_target_hypotheses track).

Definition hypotheses_meas_idx (tracks : gmap nat Track) : list nat :=
  meas_idx <$> hypotheses tracks.

End Tracks.

(** ** [class PoissonRFS] *)

Module PoissonRFS.
Section PoissonRFS.
Context `{Collaborators}.

(** The engine that the module imports under the name [GaussianDensity]. *)
Context (GaussianDensity : DensityEngine).

Record t : Type := mk {
  intensity : GaussianMixtureNumpy
}.

(** [PoissonRFS.detected_update], a static method. *)
Definition detected_update (meas : nat * Observation)
  (intensity : GaussianMixtureNumpy) (meas_model : MeasModel)
  (detection_probability clutter_intensity : float) (density : DensityEngine)
  : result SingleTargetHypothesis :=
  let '(meas_idx, measurement) := meas in
  assert (isinstance_MeasurementModel meas_model);;
  let '(updated_ppp_components, loglikelihoods) :=
    update_states_with_likelihoods_by_single_measurement GaussianDensity
      intensity measurement meas_model in
  n ← GaussianMixtureNumpy__len__ intensity;
  k ← len loglikelihoods;
  assert (n =? k);;
  weighted ← broadcast2 fadd (weigths_log intensity) loglikelihoods;
  let log_weights :=
    elementwise (fun w => (w + np_log detection_probability)%float) weighted in
  let '(normalized_log_weights, log_sum) := normalize_log_weights log_weights in
  let merged_state :=
    moment_matching_vectorized density normalized_log_weights
      updated_ppp_components in
  let log_likelihood := logsumexp [log_sum; np_log clutter_intensity] in
  let existence_probability := np_exp (log_sum - log_likelihood) in
  bernoulli ←
    Bernoulli.__init__ [VGaussian merged_state; VFloat existence_probability] [];
  let cost := (- log_likelihood)%float in
  Ok {| bernoulli := bernoulli;
        log_likelihood := log_likelihood;
        cost := cost;
        meas_idx := meas_idx;
        sth_id := 0 |}.

(** [l[i]] on a list. *)
Definition getitem {A} (l : list A) (i : nat) : result A :=
  match l !! i with
  | Some x => Ok x
  | None => Raise IndexError
  end.

(** [[f(i) for i in range(n)]]: the first exception ends the comprehension. *)
Fixpoint comprehension {A} (f : nat -> result A) (range : list nat) : result (list A) :=
  match range with
  | [] => Ok []
  | i :: range' =>
      x ← f i;
      xs ← comprehension f range';
      Ok (x :: xs)
  end.

(** The loop that files each new track under its identifier. *)
Fixpoint file_tracks (new_single_target_hypotheses : list SingleTargetHypothesis)
  (range : list nat) (new_tracks : gmap nat Track) : M (gset nat) (gmap nat Track) :=
  match range with
  | [] => mret new_tracks
  | meas_idx :: range' =>
      sth ← lift (getitem new_single_target_hypotheses meas_idx);
      new_track ← Track_from_sth sth;
      file_tracks new_single_target_hypotheses range'
        (<[track_id new_track := new_track]> new_tracks)
  end.

(** [PoissonRFS.get_targets_detected_for_first_time]; [self] is only read,
    the state is that of the track factory.  The Kalman gain is asked for
    first, with [meas_model] as it came in: the [isinstance] assertion is
    in [detected_update]. *)
Definition get_targets_detected_for_first_time (self : t)
  (measurements : list Observation) (clutter_intensity : float)
  (meas_model : MeasModel) (detection_probability : float)
  : M (gset nat) (gmap nat Track) :=
  '(H_x, S_, K) ←
    lift (call_numpy_get_Kalman_gain GaussianDensity (intensity self) meas_model);
  new_single_target_hypotheses ←
    lift (comprehension
            (fun meas_idx =>
               measurement ← getitem measurements meas_idx;
               detected_update (meas_idx, measurement) (intensity self)
                 meas_model detection_probability clutter_intensity
                 GaussianDensity)
            (seq 0 (length measurements)));
  file_tracks new_single_target_hypotheses (seq 0 (length measurements)) ∅.

(** [PoissonRFS.undetected_update].  The [Timer] decorator measures the
    call and is left out. *)
Definition undetected_update (detection_probability : float) : M t unit :=
  self ← get;
  let c := np_log (Fin 1 - detection_probability) in
  put (mk {| means := means (intensity self);
             covs := covs (intensity self);
             weigths_log :=
               elementwise (fun w => (w + c)%float) (weigths_log (intensity self)) |}).

(** [PoissonRFS.prune]: the three right-hand sides are evaluated before any
    attribute is assigned. *)
Definition prune (threshold : float) : M t unit :=
  self ← get;
  let mask_to_keep :=
    np_squeeze
      (elementwise (fun w => fgt w threshold) (weigths_log (intensity self))) in
  means' ← lift (getitem_mask (means (intensity self)) mask_to_keep);
  covs' ← lift (getitem_mask (covs (intensity self)) mask_to_keep);
  weigths_log' ← lift (getitem_mask (weigths_log (intensity self)) mask_to_keep);
  put (mk {| means := means'; covs := covs'; weigths_log := weigths_log' |}).

(** [PoissonRFS.predict] *)
Definition predict (motion_model : MotionModel) (survival_probability : float)
  (density : DensityEngine) (dt : float) : M t unit :=
  self ← get;
  let c := np_log survival_probability in
  put (mk {| means := means (intensity self);
             covs := covs (intensity self);
             weigths_log :=
               elementwise (fun w => (w + c)%float) (weigths_log (intensity self)) |});;
  self ← get;
  let '(means', covs') :=
    density_predict_arrays density (means (intensity self)) (covs (intensity self))
      motion_model dt in
  put (mk {| means := means'; covs := covs';
             weigths_log := weigths_log (intensity self) |}).

(** [PoissonRFS.birth] *)
Definition birth (new_components : GaussianMixtureNumpy) : M t unit :=
  self ← get;
  intensity' ← lift (GaussianMixtureNumpy__iadd__ (intensity self) new_components);
  put (mk intensity').

End PoissonRFS.
End PoissonRFS.

(** ** Running a method *)

(** The value returned (or the exception raised) and the object after the
    call. *)
Definition returned {S A} (m : M S A) (s : S) : result A := fst (m s).
Definition after {S A} (m : M S A) (s : S) : S := snd (m s).

(** ** Contracts

    What the properties below assume of a mixture or of the engine. *)

Section Contracts.
Context `{Collaborators}.

(** The engine's batched time update returns as many rows as it is given. *)
Definition keeps_rows (density : DensityEngine) : Prop :=
  forall ms cs motion_model dt,
    len (fst (density_predict_arrays density ms cs motion_model dt)) = len ms
    /\ len (snd (density_predict_arrays density ms cs motion_model dt)) = len cs.

(** A mixture of [n] components laid out as the spec describes it: the
    log-weights are a vector of [n] entries, means and covariances have [n]
    rows, and every array holds as many elements as its shape says. *)
Definition proper (m : GaussianMixtureNumpy) (n : nat) : Prop :=
  shape (weigths_log m) = [n]
  /\ (exists s, shape (means m) = n :: s)
  /\ (exists s, shape (covs m) = n :: s)
  /\ well_shaped (means m) /\ well_shaped (covs m) /\ well_shaped (weigths_log m).

(** A log-weight that [prune(threshold)] keeps. *)
Definition kept (threshold w : float) : Prop := fgt w threshold = true.

(** The per-component posterior log-weights of step 2:
    "[prior_log_weight + innovation_log_likelihood +
    log(detection_probability)]". *)
Definition posterior_log_weights (intensity : GaussianMixtureNumpy)
  (loglikelihoods : ndarray float) (detection_probability : float)
  : result (ndarray float) :=
  weighted ← broadcast2 fadd (weigths_log intensity) loglikelihoods;
  Ok (elementwise (fun w => (w + np_log detection_probability)%float) weighted).

(** The log-likelihoods that the engine reports for a measurement. *)
Definition loglikelihoods_of (engine : DensityEngine) (intensity : GaussianMixtureNumpy)
  (measurement : Observation) (meas_model : MeasModel) : ndarray float :=
  snd (update_states_with_likelihoods_by_single_measurement engine intensity
         measurement meas_model).

(** The engine reports one log-likelihood per component, in an array that
    can be added to the log-weights. *)
Definition likelihoods_fit (engine : DensityEngine) (intensity : GaussianMixtureNumpy)
  (meas_model : MeasModel) (measurement : Observation) : Prop :=
  let loglikelihoods := loglikelihoods_of engine intensity measurement meas_model in
  (exists n, GaussianMixtureNumpy__len__ intensity = Ok n /\ len loglikelihoods = Ok n)
  /\ (exists weighted,
         broadcast2 fadd (weigths_log intensity) loglikelihoods = Ok weighted).

(** Log-weights and log-likelihoods that are finite or [-inf]. *)
Definition log_values (a : ndarray float) : Prop :=
  Forall (fun w => is_log_value w = true) (data a).

(** What steps 4 and 5 of the extraction ask of a hypothesis, [log_sum]
    being the log-sum that normalising the posterior log-weights gives. *)
Definition likelihood_and_existence (log_weights : ndarray float)
  (clutter_intensity : float) (sth : SingleTargetHypothesis) : Prop :=
  let log_sum := snd (normalize_log_weights log_weights) in
  log_likelihood sth = logsumexp [log_sum; np_log clutter_intensity]
  /\ Bernoulli.existence_probability (bernoulli sth)
     = np_exp (log_sum - log_likelihood sth).

(** The call of [detected_update] that the comprehension of
    [get_targets_detected_for_first_time] makes for the index [i]. *)
Definition first_detection (engine : DensityEngine) (self : PoissonRFS.t)
  (measurements : list Observation) (clutter_intensity : float)
  (meas_model : MeasModel) (detection_probability : float) (i : nat)
  : result SingleTargetHypothesis :=
  measurement ← PoissonRFS.getitem measurements i;
  PoissonRFS.detected_update engine (i, measurement) (PoissonRFS.intensity self)
    meas_model detection_probability clutter_intensity engine.

End Contracts.

(** ** A concrete setting

    Collaborators small enough to run the methods: states and measurements
    carry no information, a measurement model is a flag saying whether it
    is one, the engine leaves the arrays as they are and reports a
    log-likelihood of 0 for every component. *)

Module Fixture.

#[global] Instance collaborators : Collaborators := {|
  Gaussian := unit;
  MotionModel := unit;
  MeasModel := bool;
  Observation := unit;
  Components := unit;
  KalmanGain := unit;
  isinstance_MeasurementModel := fun is_model => is_model
|}.

Definition engine : DensityEngine := {|
  density_predict := fun g _ _ => g;
  density_predict_arrays := fun ms cs _ _ => (ms, cs);
  density_update := fun g _ _ => g;
  predict_loglikelihood := fun _ zs _ => vector ((fun _ => Fin 0) <$> zs);
  numpy_get_Kalman_gain := fun _ _ => (tt, tt, tt);
  numpy_get_Kalman_gain_raises := fun _ _ => None;
  update_states_with_likelihoods_by_single_measurement :=
    fun m _ _ => (tt, elementwise (fun _ => Fin 0) (weigths_log m));
  moment_matching_vectorized := fun _ _ => tt
|}.

(** A mixture of one-dimensional components with the given log-weights:
    means 0, variances 1. *)
Definition mixture (log_weights : list float) : GaussianMixtureNumpy := {|
  means := mk_ndarray [length log_weights; 1] ((fun _ => Fin 0) <$> log_weights);
  covs := mk_ndarray [length log_weights; 1; 1] ((fun _ => Fin 1) <$> log_weights);
  weigths_log := vector log_weights
|}.

(** A Bernoulli that exists for certain and one that may not. *)
Definition certain : Bernoulli.t := @Bernoulli.mk collaborators tt (Fin 1).
Definition doubtful : Bernoulli.t := @Bernoulli.mk collaborators tt (Fin (1/2)).

(** The scenario of one component of weight 1 and measurements with a
    clutter intensity of 0.01 and a detection probability of 0.9. *)
Definition clutter_intensity : R := 1/100.
Definition detection_probability : float := Fin (9/10).

(** An intensity of a single component of weight 1, one of a single
    component of weight 0 (log-weight [-inf]), and a birth mixture of a
    single component of weight 1. *)
Definition lone : PoissonRFS.t := PoissonRFS.mk (mixture [Fin 0]).
Definition exhausted : PoissonRFS.t := PoissonRFS.mk (mixture [NInf]).
Definition newborn : GaussianMixtureNumpy := mixture [Fin 0].

End Fixture.

(** ** The rest of [PoissonRFS]: [__len__] and [gating] *)

Section Gating.
Context `{Collaborators}.

(** [PoissonRFS.__len__] *)
Definition PoissonRFS__len__ (self : PoissonRFS.t) : result nat :=
  GaussianMixtureNumpy__len__ (PoissonRFS.intensity self).

(** What is passed to [gating] as [density_handler]: of the pair that
    [ellipsoidal_gating] returns, [gating] keeps the boolean mask. *)
Record GatingHandler : Type := {
  ellipsoidal_gating :
    Gaussian -> list Observation -> MeasModel -> float ->
    list Observation * ndarray bool
}.

(** What [gating] reads of the mixture: [intensity.size] and
    [intensity[ppp_idx].gaussian] ([mot.common] is not among the sources;
    both are taken as parameters). *)
Record ComponentView : Type := {
  mixture_size : GaussianMixtureNumpy -> nat;
  component_gaussian : GaussianMixtureNumpy -> nat -> Gaussian
}.

(** [np.full(shape, fill_value)] *)
Definition np_full {A} (shape : list nat) (fill_value : A) : ndarray A :=
  mk_ndarray shape (replicate (size_of shape) fill_value).

(** The elements that an array gives when it is assigned to a row of [m]
    elements: its leading axes of extent 1 do not count; what is left must
    be nothing (one element, repeated) or one axis of extent [m]. *)
Fixpoint strip_ones (s : list nat) : list nat :=
  match s with
  | 1 :: s' => strip_ones s'
  | _ => s
  end.

Definition as_row {A} (v : ndarray A) (m : nat) : option (list A) :=
  match strip_ones (shape v) with
  | [] => Some (concat (replicate m (data v)))
  | [k] => if decide (k = m) then Some (data v) else None
  | _ => None
  end.

(** [a[i, :] = v] on a matrix. *)
Definition setitem_row {A} (a : ndarray A) (i : nat) (v : ndarray A)
  : result (ndarray A) :=
  match shape a with
  | [n; m] =>
      if decide (i < n)
      then match as_row v m with
           | Some row =>
               Ok (mk_ndarray [n; m]
                     (take (i * m) (data a) ++ row ++ drop (i * m + m) (data a)))
           | None => Raise ValueError
           end
      else Raise IndexError
  | _ => Raise IndexError
  end.

(** [a[i]] *)
Definition getitem_row {A} (a : ndarray A) (i : nat) : result (ndarray A) :=
  match shape a with
  | n :: s =>
      if decide (i < n)
      then Ok (mk_ndarray s (take (size_of s) (drop (i * size_of s) (data a))))
      else Raise IndexError
  | [] => Raise IndexError
  end.

(** [np.logical_or] *)
Definition np_logical_or (a b : ndarray bool) : result (ndarray bool) :=
  broadcast2 orb a b.

(** The body of the loop of [gating], for the components of [range]. *)
Fixpoint gating_loop (view : ComponentView) (intensity : GaussianMixtureNumpy)
  (measurements : list Observation) (density_handler : GatingHandler)
  (meas_model : MeasModel) (gating_size : float) (range : list nat)
  (gating_matrix_undetected used_measurement_undetected_indices : ndarray bool)
  : result (ndarray bool * ndarray bool) :=
  match range with
  | [] => Ok (gating_matrix_undetected, used_measurement_undetected_indices)
  | ppp_idx :: range' =>
      let '(_, mask) :=
        ellipsoidal_gating density_handler
          (component_gaussian view intensity ppp_idx)
          measurements meas_model gating_size in
      gating_matrix_undetected ← setitem_row gating_matrix_undetected ppp_idx mask;
      row ← getitem_row gating_matrix_undetected ppp_idx;
      used_measurement_undetected_indices ←
        np_logical_or used_measurement_undetected_indices row;
      gating_loop view intensity measurements density_handler meas_model
        gating_size range' gating_matrix_undetected
        used_measurement_undetected_indices
  end.

(** [PoissonRFS.gating]; [self] is only read. *)
Definition gating (view : ComponentView) (self : PoissonRFS.t)
  (measurements : list Observation) (density_handler : GatingHandler)
  (meas_model : MeasModel) (gating_size : float)
  : result (ndarray bool * ndarray bool) :=
  let size := mixture_size view (PoissonRFS.intensity self) in
  let gating_matrix_undetected := np_full [size; length measurements] false in
  let used_measurement_undetected_indices :=
    np_full [length measurements] false in
  gating_loop view (PoissonRFS.intensity self) measurements density_handler
    meas_model gating_size (seq 0 size)
    gating_matrix_undetected used_measurement_undetected_indices.

(** The masks that the handler reports, one per component. *)
Definition gates (view : ComponentView) (self : PoissonRFS.t)
  (measurements : list Observation) (density_handler : GatingHandler)
  (meas_model : MeasModel) (gating_size : float) : list (ndarray bool) :=
  (fun ppp_idx =>
     snd (ellipsoidal_gating density_handler
            (component_gaussian view (PoissonRFS.intensity self) ppp_idx)
            measurements meas_model gating_size))
  <$> seq 0 (mixture_size view (PoissonRFS.intensity self)).

(** The handler answers with one boolean per measurement. *)
Definition gate_fits (measurements : list Observation) (gate : ndarray bool) : Prop :=
  shape gate = [length measurements]
  /\ length (data gate) = length measurements.

(** Whether some component gates the measurement of index [j]. *)
Definition gated_by_some (gates : list (ndarray bool)) (j : nat) : Prop :=
  exists i gate, gates !! i = Some gate /\ data gate !! j = Some true.

End Gating.

(** ** Order on doubles *)

(** [a <= b]; false as soon as one side is [nan]. *)
Definition fle (a b : float) : bool :=
  match a, b with
  | NaN, _ | _, NaN => false
  | NInf, _ => true
  | _, PInf => true
  | PInf, _ => false
  | Fin _, NInf => false
  | Fin x, Fin y => bool_decide (x <= y)%R
  end.

(** ** More of the concrete setting *)

Module Scenario.

(** An intensity of two components of weight 1, and one whose means have a
    row more than there are log-weights. *)
Definition pair : PoissonRFS.t := PoissonRFS.mk (Fixture.mixture [Fin 0; Fin 0]).


(** The one density there is, a Bernoulli of existence probability 0, and
    two measurements. *)
Definition nowhere : @Gaussian Fixture.collaborators := tt.
Definition nothing : Bernoulli.t := @Bernoulli.mk Fixture.collaborators tt (Fin 0).
Definition two_measurements : list (@Observation Fixture.collaborators) := [tt; tt].

(** The components of a mixture are counted by its log-weights; their
    densities carry no information. *)
Definition view : ComponentView := {|
  mixture_size := fun m => length (data (weigths_log m));
  component_gaussian := fun _ _ => tt
|}.

(** A handler whose gates hold every measurement, and one that answers
    with three booleans whatever the measurements are. *)
Definition wide_gates : GatingHandler := {|
  ellipsoidal_gating := fun _ zs _ _ => (zs, vector ((fun _ => true) <$> zs))
|}.

Definition three_booleans : GatingHandler := {|
  ellipsoidal_gating := fun _ _ _ _ => ([], vector [true; false; true])
|}.

(** The engine of the fixture, except that [numpy_get_Kalman_gain] raises
    [TypeError] on what is no measurement model. *)
Definition strict_engine : DensityEngine := {|
  density_predict := density_predict Fixture.engine;
  density_predict_arrays := density_predict_arrays Fixture.engine;
  density_update := density_update Fixture.engine;
  predict_loglikelihood := predict_loglikelihood Fixture.engine;
  numpy_get_Kalman_gain := numpy_get_Kalman_gain Fixture.engine;
  numpy_get_Kalman_gain_raises := fun _ _ => Some TypeError;
  update_states_with_likelihoods_by_single_measurement :=
    update_states_with_likelihoods_by_single_measurement Fixture.engine;
  moment_matching_vectorized := moment_matching_vectorized Fixture.engine
|}.

End Scenario.

(** * Properties *)

(** ** Bernoulli components *)

Section BernoulliProperties.
Context `{Collaborators}.

Lemma truediv_raises a b e : truediv a b = Raise e -> e = ZeroDivisionError.
Proof.
  unfold truediv. destruct b as [| |y|]; try discriminate.
  destruct (decide (y = 0%R)); [congruence | discriminate].
Qed.

Lemma divide_raises operands a b e :
  divide operands a b = Raise e -> e = ZeroDivisionError.
Proof.
  destruct operands; [apply truediv_raises | discriminate].
Qed.


Lemma init_rejects_initial_state (g : Gaussian) (r : float) :
  Bernoulli.__init__ [] [("initial_state", VGaussian g);
                         ("existence_probability", VFloat r)]
  = Raise TypeError.
Proof. reflexivity. Qed.

Lemma init_positional (g : Gaussian) (r : float) :
  Bernoulli.__init__ [VGaussian g; VFloat r] [] = Ok (Bernoulli.mk g r).
Proof. reflexivity. Qed.

Lemma init_keywords (g : Gaussian) (r : float) :
  Bernoulli.__init__ [] [("state", VGaussian g); ("existence_probability", VFloat r)]
  = Ok (Bernoulli.mk g r).
Proof. reflexivity. Qed.

(** No assignment in [predict] and no import binds [next_state]. *)
Lemma next_state_unbound (frame : list (string * value)) :
  "next_state" ∉ frame.*1 ->
  load_name "next_state" frame Bernoulli.module_globals = Raise NameError.
Proof.
  intros Hframe. unfold load_name.
  rewrite (not_elem_of_list_to_map_1 _ _ Hframe). reflexivity.
Qed.

(** The quotient of line 74 for finite operands and a divisor other than
    zero: the posterior existence probability [r(1 - p) / (1 - r + r(1 - p))]
    of the missed-detection update. *)
Lemma posterior_existence_quotient (r p : R) :
  (1 - r + r * (1 - p) <> 0)%R ->
  truediv (Fin r * (Fin 1 - Fin p))%float
          (Fin 1 - Fin r + Fin r * (Fin 1 - Fin p))%float
  = Ok (Fin (r * (1 - p) / (1 - r + r * (1 - p)))).
Proof.
  intros Hnz. unfold truediv. cbn [fsub fadd fmul fneg].
  case_decide as Hz; [exfalso; apply Hnz; lra|].
  reflexivity.
Qed.

(** C3.  [undetected_update] never returns: whenever the quotient for the
    posterior existence probability is defined, the constructor is called
    with the keyword [initial_state], which [Bernoulli.__init__] does not
    have, and the call raises [TypeError]; otherwise the division has
    already raised [ZeroDivisionError]. *)
Theorem undetected_update_never_returns (numbers : scalar_type)
  (self : Bernoulli.t) (detection_probability : float) :
  Bernoulli.undetected_update numbers self detection_probability = Raise TypeError
  \/ Bernoulli.undetected_update numbers self detection_probability
     = Raise ZeroDivisionError.
Proof.
  unfold Bernoulli.undetected_update.
  destruct (divide _ _ _) as [q|e] eqn:Hdiv.
  - left. cbn [mbind result_bind]. now rewrite init_rejects_initial_state.
  - right. apply divide_raises in Hdiv. now subst e.
Qed.

(** A concrete call: with [r = 1/2] and [detection_probability = 1/2] the
    missed-detection update should give the existence probability [1/3]
    and the log-likelihood [log (3/4)]; the call raises [TypeError]. *)
Lemma undetected_update_half_half (numbers : scalar_type) (g : Gaussian) :
  Bernoulli.undetected_update numbers (Bernoulli.mk g (Fin (1/2))) (Fin (1/2))
  = Raise TypeError.
Proof.
  unfold Bernoulli.undetected_update.
  destruct numbers; [|reflexivity].
  unfold divide, truediv.
  cbn [fsub fadd fmul fneg Bernoulli.existence_probability].
  destruct (decide _) as [Hz|_]; [lra | reflexivity].
Qed.


(** C5.  [predict] assigns the predicted density to [self.state] and then
    reads the name [next_state], which is bound nowhere: the call raises
    [NameError], and the Bernoulli it was called on has a new state. *)
Theorem predict_raises_and_mutates (self : Bernoulli.t) (motion_model : MotionModel)
  (survival_probability : float) (density : DensityEngine) (dt : float) :
  Bernoulli.predict motion_model survival_probability density dt self
  = (Raise NameError,
     Bernoulli.mk (density_predict density (Bernoulli.state self) motion_model dt)
                  (Bernoulli.existence_probability self)).
Proof.
  unfold Bernoulli.predict, mbind, M_bind, get, put, lift. cbn [fst snd].
  rewrite next_state_unbound; [reflexivity|].
  apply (bool_decide_unpack _). exact I.
Qed.

(** C6.  [detected_update_state] returns the Bernoulli with the updated
    density and existence probability exactly 1, whatever the existence
    probability of its argument. *)
Theorem detected_update_state_certain (bern : Bernoulli.t) (z : Observation)
  (meas_model : MeasModel) (density : DensityEngine) :
  isinstance_MeasurementModel meas_model = true ->
  Bernoulli.detected_update_state bern z meas_model density
  = Ok (Bernoulli.mk (density_update density (Bernoulli.state bern) z meas_model)
          (Fin 1)).
Proof.
  intros Hmodel. unfold Bernoulli.detected_update_state. rewrite Hmodel.
  reflexivity.
Qed.

End BernoulliProperties.

(** ** Arrays *)

Section ArrayLemmas.
Context {A : Type}.
Implicit Types (a : ndarray A) (d : list A) (mask : list bool).

Lemma ndarray_eta a : mk_ndarray (shape a) (data a) = a.
Proof. now destruct a. Qed.

Lemma len_getitem_mask a (m : ndarray bool) a' :
  getitem_mask a m = Ok a' -> len a' = Ok (count_true (data m)).
Proof.
  unfold getitem_mask. case_bool_decide; [|discriminate].
  intros [= <-]. reflexivity.
Qed.

Lemma len_concatenate a b c n m :
  np_concatenate a b = Ok c -> len a = Ok n -> len b = Ok m -> len c = Ok (n + m).
Proof.
  unfold np_concatenate, len.
  destruct (shape a) as [|n' s]; [discriminate|].
  destruct (shape b) as [|m' t]; [discriminate|].
  case_decide; [|discriminate].
  intros [= <-] [= ->] [= ->]. reflexivity.
Qed.

Lemma count_true_all mask :
  Forall (fun b => b = true) mask -> count_true mask = length mask.
Proof.
  unfold count_true. induction 1 as [|b mask -> _ IH]; simpl; [reflexivity|].
  now rewrite IH.
Qed.

Lemma take_rows_all mask row d :
  Forall (fun b => b = true) mask -> length d = length mask * row ->
  take_rows mask row d = d.
Proof.
  intros Hall. revert d. induction Hall as [|b mask -> _ IH]; intros d Hlen; simpl in *.
  - destruct d; [reflexivity | discriminate].
  - rewrite IH.
    + apply take_drop.
    + rewrite length_drop. lia.
Qed.

Lemma length_take_rows mask row d :
  length d = length mask * row ->
  length (take_rows mask row d) = count_true mask * row.
Proof.
  unfold count_true. revert d.
  induction mask as [|b mask IH]; intros d Hlen; simpl in *.
  - reflexivity.
  - rewrite length_app, IH by (rewrite length_drop; lia).
    destruct b; simpl; [rewrite length_take|]; lia.
Qed.

(** Rows of one element: the mask filters the list. *)
Lemma take_rows_filter (f : A -> bool) d :
  take_rows (f <$> d) 1 d = List.filter f d.
Proof.
  induction d as [|x d IH]; [reflexivity|].
  rewrite fmap_cons. cbn [take_rows take drop List.filter].
  rewrite drop_0, take_0, IH. now destruct (f x).
Qed.

Lemma squeeze_vector a n : shape a = [n] -> n <> 1 -> np_squeeze a = a.
Proof.
  intros Hs Hn. unfold np_squeeze. rewrite Hs. simpl.
  destruct (Nat.eqb_spec n 1) as [->|_]; [done|]. simpl.
  rewrite <- Hs. apply ndarray_eta.
Qed.

Lemma squeeze_single a : shape a = [1] -> np_squeeze a = mk_ndarray [] (data a).
Proof. intros Hs. unfold np_squeeze. now rewrite Hs. Qed.

(** A mask that is a vector of [True] of the extent of the first axis
    selects the whole array. *)
Lemma getitem_mask_all a (m : ndarray bool) n s :
  shape a = n :: s -> well_shaped a ->
  shape m = [n] -> length (data m) = n -> Forall (fun b => b = true) (data m) ->
  getitem_mask a m = Ok a.
Proof.
  intros Hs Hwf Hm Hlen Hall. unfold getitem_mask. rewrite Hm, Hs.
  rewrite bool_decide_eq_true_2 by (exists s; reflexivity).
  simpl. rewrite drop_0, count_true_all, Hlen by done.
  rewrite take_rows_all; [| done |].
  - rewrite <- Hs. now rewrite ndarray_eta.
  - rewrite Hlen. unfold well_shaped in Hwf. rewrite Hwf, Hs. reflexivity.
Qed.

End ArrayLemmas.

(** ** The Poisson intensity: the parallel arrays *)

Section IntensityInvariant.
Context `{Collaborators}.
Implicit Types (self : PoissonRFS.t) (m : GaussianMixtureNumpy).

Import PoissonRFS.

(** What [prune] does, by the outcome of the three selections. *)
Lemma prune_unfold self threshold :
  let mask := np_squeeze (elementwise (fun w => fgt w threshold)
                            (weigths_log (intensity self))) in
  prune threshold self =
  match getitem_mask (means (intensity self)) mask,
        getitem_mask (covs (intensity self)) mask,
        getitem_mask (weigths_log (intensity self)) mask with
  | Ok ms, Ok cs, Ok ws =>
      (Ok tt, mk {| means := ms; covs := cs; weigths_log := ws |})
  | Raise e, _, _ | Ok _, Raise e, _ | Ok _, Ok _, Raise e => (Raise e, self)
  end.
Proof.
  unfold prune, mbind, M_bind, get, lift, put. simpl.
  destruct (getitem_mask (means _) _); [|reflexivity].
  destruct (getitem_mask (covs _) _); [|reflexivity].
  destruct (getitem_mask (weigths_log _) _); reflexivity.
Qed.

Lemma prune_keeps_invariant self threshold :
  parallel_arrays (intensity self) ->
  parallel_arrays (intensity (after (prune threshold) self)).
Proof.
  intros Hinv. unfold after. rewrite prune_unfold. simpl.
  destruct (getitem_mask (means _) _) as [ms|] eqn:Hms; [|exact Hinv].
  destruct (getitem_mask (covs _) _) as [cs|] eqn:Hcs; [|exact Hinv].
  destruct (getitem_mask (weigths_log _) _) as [ws|] eqn:Hws; [|exact Hinv].
  eexists. simpl. repeat split; eapply len_getitem_mask; eassumption.
Qed.

Lemma predict_keeps_invariant self motion_model survival_probability density dt :
  keeps_rows density ->
  parallel_arrays (intensity self) ->
  returned (predict motion_model survival_probability density dt) self = Ok tt
  /\ parallel_arrays
       (intensity (after (predict motion_model survival_probability density dt) self)).
Proof.
  intros Hrows (n & Hms & Hcs & Hws).
  unfold returned, after, predict, mbind, M_bind, get, put. simpl.
  destruct (Hrows (means (intensity self)) (covs (intensity self)) motion_model dt)
    as [Hms' Hcs'].
  destruct (density_predict_arrays _ _ _ _ _) as [ms' cs']. simpl in *.
  split; [reflexivity|]. exists n. simpl. rewrite Hms', Hcs'. auto.
Qed.

Lemma undetected_update_keeps_invariant self detection_probability :
  parallel_arrays (intensity self) ->
  returned (undetected_update detection_probability) self = Ok tt
  /\ parallel_arrays (intensity (after (undetected_update detection_probability) self)).
Proof.
  intros (n & Hms & Hcs & Hws). split; [reflexivity|]. exists n. auto.
Qed.

Lemma birth_keeps_invariant self new_components :
  parallel_arrays (intensity self) ->
  parallel_arrays new_components ->
  parallel_arrays (intensity (after (birth new_components) self)).
Proof.
  intros (n & Hms & Hcs & Hws) (k & Hms' & Hcs' & Hws').
  unfold after, birth, GaussianMixtureNumpy__iadd__, mbind, M_bind, get, lift, put.
  simpl.
  destruct (np_concatenate (means _) _) as [ms|] eqn:Ems;
    [|exists n; simpl; auto].
  destruct (np_concatenate (covs _) _) as [cs|] eqn:Ecs;
    [|exists n; simpl; auto].
  destruct (np_concatenate (weigths_log _) _) as [ws|] eqn:Ews;
    [|exists n; simpl; auto].
  exists (n + k). simpl. repeat split; eapply len_concatenate; eassumption.
Qed.

(** C7.  [predict], [birth], [prune] and [undetected_update] leave the
    three arrays of the intensity with first axes of one and the same
    extent, whenever they found them so ([birth]: in both mixtures;
    [predict]: with an engine that returns as many rows as it is given).
    This is so also when [prune] or [birth] raise: nothing is assigned
    then. *)
Theorem mutators_keep_parallel_arrays self :
  parallel_arrays (intensity self) ->
  (forall motion_model survival_probability density dt,
      keeps_rows density ->
      parallel_arrays
        (intensity (after (predict motion_model survival_probability density dt) self)))
  /\ (forall new_components,
         parallel_arrays new_components ->
         parallel_arrays (intensity (after (birth new_components) self)))
  /\ (forall threshold,
         parallel_arrays (intensity (after (prune threshold) self)))
  /\ (forall detection_probability,
         parallel_arrays
           (intensity (after (undetected_update detection_probability) self))).
Proof.
  intros Hinv. repeat split.
  - intros. now apply predict_keeps_invariant.
  - intros. now apply birth_keeps_invariant.
  - intros. now apply prune_keeps_invariant.
  - intros. now apply undetected_update_keeps_invariant.
Qed.

End IntensityInvariant.

(** ** The Poisson intensity: pruning *)

Section Pruning.
Context `{Collaborators}.
Implicit Types (self : PoissonRFS.t) (m : GaussianMixtureNumpy).

Import PoissonRFS.

Lemma getitem_mask_0d {A} (a : ndarray A) (b : bool) :
  well_shaped a ->
  getitem_mask a (mk_ndarray [] [b])
  = Ok (if b then mk_ndarray (1 :: shape a) (data a) else mk_ndarray (0 :: shape a) []).
Proof.
  intros Hwf. unfold getitem_mask. simpl. rewrite drop_0, app_nil_r.
  destruct b; [|reflexivity].
  rewrite firstn_all2; [reflexivity|].
  unfold well_shaped in Hwf. rewrite Hwf. reflexivity.
Qed.

Lemma getitem_mask_vector {A} (a : ndarray A) (mask : list bool) n s :
  shape a = n :: s -> length mask = n ->
  getitem_mask a (mk_ndarray [n] mask)
  = Ok (mk_ndarray (count_true mask :: s) (take_rows mask (size_of s) (data a))).
Proof.
  intros Hs Hlen. unfold getitem_mask. simpl. rewrite Hs.
  rewrite bool_decide_eq_true_2 by (exists s; reflexivity).
  reflexivity.
Qed.

Lemma getitem_mask_weights {A} (a : ndarray A) (f : A -> bool) n :
  shape a = [n] -> length (data a) = n ->
  getitem_mask a (mk_ndarray [n] (f <$> data a))
  = Ok (mk_ndarray [count_true (f <$> data a)] (List.filter f (data a))).
Proof.
  intros Hs Hlen. rewrite (getitem_mask_vector a _ n []) by (now rewrite ?length_fmap).
  change (size_of []) with 1. now rewrite take_rows_filter.
Qed.

Lemma proper_weights_length m n :
  proper m n -> length (data (weigths_log m)) = n.
Proof.
  intros (Hw & _ & _ & _ & _ & Hwf). unfold well_shaped in Hwf.
  rewrite Hwf, Hw. simpl. lia.
Qed.

(** On a proper mixture of other than one component the mask is a vector
    and [prune] selects rows. *)
Lemma prune_proper self threshold n :
  proper (intensity self) n -> n <> 1 ->
  let mask := (fun w => fgt w threshold) <$> data (weigths_log (intensity self)) in
  prune threshold self
  = (Ok tt,
     mk {| means := mk_ndarray (count_true mask :: tail (shape (means (intensity self))))
                      (take_rows mask (size_of (tail (shape (means (intensity self)))))
                         (data (means (intensity self))));
           covs := mk_ndarray (count_true mask :: tail (shape (covs (intensity self))))
                     (take_rows mask (size_of (tail (shape (covs (intensity self)))))
                        (data (covs (intensity self))));
           weigths_log := mk_ndarray [count_true mask]
                            (List.filter (fun w => fgt w threshold)
                               (data (weigths_log (intensity self)))) |}).
Proof.
  intros Hp Hn mask. pose proof (proper_weights_length _ _ Hp) as Hlen.
  destruct Hp as (Hw & [sm Hm] & [sc Hc] & _).
  rewrite prune_unfold. cbv zeta.
  rewrite (squeeze_vector _ n) by done.
  unfold elementwise. rewrite Hw. subst mask.
  rewrite (getitem_mask_vector _ _ n sm), (getitem_mask_vector _ _ n sc),
    (getitem_mask_weights _ _ n) by (now rewrite ?length_fmap).
  rewrite Hm, Hc. reflexivity.
Qed.

(** ... and what is left is again a proper mixture. *)
Lemma prune_proper_after self threshold n :
  proper (intensity self) n -> n <> 1 ->
  proper (intensity (after (prune threshold) self))
    (count_true ((fun w => fgt w threshold) <$> data (weigths_log (intensity self)))).
Proof.
  intros Hp Hn. unfold after. rewrite (prune_proper _ _ n) by done. simpl.
  pose proof (proper_weights_length _ _ Hp) as Hlen.
  destruct Hp as (Hw & [sm Hm] & [sc Hc] & Hwm & Hwc & Hww).
  unfold proper, well_shaped in *. simpl. rewrite Hm, Hc in *. simpl in *.
  repeat split; eauto.
  - rewrite length_take_rows; [reflexivity|]. rewrite length_fmap. lia.
  - rewrite length_take_rows; [reflexivity|]. rewrite length_fmap. lia.
  - rewrite <- take_rows_filter, length_take_rows; [reflexivity|].
    rewrite length_fmap. lia.
Qed.

(** When every log-weight is above the threshold nothing changes. *)
Lemma prune_keeps_all self threshold n :
  proper (intensity self) n -> n <> 1 ->
  Forall (kept threshold) (data (weigths_log (intensity self))) ->
  prune threshold self = (Ok tt, self).
Proof.
  intros Hp Hn Hall. pose proof (proper_weights_length _ _ Hp) as Hlen.
  destruct Hp as (Hw & [sm Hm] & [sc Hc] & Hwm & Hwc & Hww).
  rewrite prune_unfold. cbv zeta. rewrite (squeeze_vector _ n) by done.
  assert (Forall (fun b => b = true)
            ((fun w => fgt w threshold) <$> data (weigths_log (intensity self))))
    as Htrue by (rewrite Forall_fmap; exact Hall).
  rewrite (getitem_mask_all _ _ n sm), (getitem_mask_all _ _ n sc),
    (getitem_mask_all _ _ n []); try done;
    try (simpl; now rewrite length_fmap).
  destruct self as [[ms cs ws]]. reflexivity.
Qed.

End Pruning.

Section BirthAndPrune.
Context `{Collaborators}.
Implicit Types (self : PoissonRFS.t) (m : GaussianMixtureNumpy).

Import PoissonRFS.

Lemma concatenate_rows {A} (a b c : ndarray A) n k s t :
  np_concatenate a b = Ok c -> shape a = n :: s -> shape b = k :: t ->
  well_shaped a -> well_shaped b ->
  c = mk_ndarray (n + k :: s) (data a ++ data b) /\ well_shaped c.
Proof.
  unfold np_concatenate, well_shaped. intros Hc Ha Hb Hwa Hwb.
  rewrite Ha, Hb in *. case_decide as Hst; [|discriminate]. subst t.
  injection Hc as <-. split; [reflexivity|]. simpl in *.
  rewrite length_app, Hwa, Hwb. lia.
Qed.

(** When [birth] returns, the intensity is the concatenation of the two
    mixtures, row by row. *)
Lemma birth_proper self new_components n k :
  proper (intensity self) n -> proper new_components k ->
  returned (birth new_components) self = Ok tt ->
  proper (intensity (after (birth new_components) self)) (n + k)
  /\ data (weigths_log (intensity (after (birth new_components) self)))
     = data (weigths_log (intensity self)) ++ data (weigths_log new_components).
Proof.
  intros (Hw & [sm Hm] & [sc Hc] & Hwm & Hwc & Hww)
         (Hw' & [sm' Hm'] & [sc' Hc'] & Hwm' & Hwc' & Hww').
  unfold returned, after, birth, GaussianMixtureNumpy__iadd__, mbind, M_bind,
    get, lift, put. simpl.
  destruct (np_concatenate (means _) _) as [ms|] eqn:Ems; [|discriminate].
  destruct (np_concatenate (covs _) _) as [cs|] eqn:Ecs; [|discriminate].
  destruct (np_concatenate (weigths_log _) _) as [ws|] eqn:Ews; [|discriminate].
  intros _. simpl.
  destruct (concatenate_rows _ _ _ _ _ _ _ Ems Hm Hm' Hwm Hwm') as [-> ?].
  destruct (concatenate_rows _ _ _ _ _ _ _ Ecs Hc Hc' Hwc Hwc') as [-> ?].
  destruct (concatenate_rows _ _ _ _ _ _ _ Ews Hw Hw' Hww Hww') as [-> ?].
  unfold proper. simpl. eauto 10.
Qed.

(** C8, as the code has it.  After [birth], [prune(-inf)] returns and
    leaves the intensity as [birth] left it, provided every log-weight is
    above [-inf] (finite or [+inf]) and the mixtures do not add up to a
    single component. *)
Theorem birth_then_prune_neg_infinity self new_components n k :
  proper (intensity self) n -> proper new_components k ->
  returned (birth new_components) self = Ok tt ->
  n + k <> 1 ->
  Forall (kept NInf) (data (weigths_log (intensity self))) ->
  Forall (kept NInf) (data (weigths_log new_components)) ->
  prune NInf (after (birth new_components) self)
  = (Ok tt, after (birth new_components) self).
Proof.
  intros Hp Hp' Hret Hnk Hall Hall'.
  destruct (birth_proper _ _ _ _ Hp Hp' Hret) as [Hafter Hdata].
  apply (prune_keeps_all _ _ (n + k)); [done | done |].
  rewrite Hdata. now apply Forall_app.
Qed.

(** [prune] twice is [prune] once, except when a single component is
    selected from. *)
Lemma prune_idempotent_unless_single self threshold n :
  proper (intensity self) n -> n <> 1 ->
  count_true ((fun w => fgt w threshold) <$> data (weigths_log (intensity self))) <> 1 ->
  prune threshold (after (prune threshold) self)
  = (Ok tt, after (prune threshold) self).
Proof.
  intros Hp Hn Hk.
  eapply prune_keeps_all; [now apply (prune_proper_after _ _ n) | exact Hk |].
  unfold after. rewrite (prune_proper _ _ n) by done. simpl.
  apply List.Forall_forall. intros w Hin. now apply List.filter_In in Hin.
Qed.

(** A mixture of a single component has a mask of one element, which
    [np.squeeze] turns into a 0-dimensional one; selecting by it puts a new
    axis in front of each array instead of selecting rows. *)
Lemma prune_single self threshold w :
  shape (np_squeeze (weigths_log (intensity self))) = [] ->
  data (weigths_log (intensity self)) = [w] ->
  well_shaped (means (intensity self)) -> well_shaped (covs (intensity self)) ->
  well_shaped (weigths_log (intensity self)) ->
  prune threshold self
  = (Ok tt,
     if fgt w threshold
     then mk {| means := mk_ndarray (1 :: shape (means (intensity self)))
                           (data (means (intensity self)));
                covs := mk_ndarray (1 :: shape (covs (intensity self)))
                          (data (covs (intensity self)));
                weigths_log := mk_ndarray (1 :: shape (weigths_log (intensity self))) [w] |}
     else mk {| means := mk_ndarray (0 :: shape (means (intensity self))) [];
                covs := mk_ndarray (0 :: shape (covs (intensity self))) [];
                weigths_log := mk_ndarray (0 :: shape (weigths_log (intensity self))) [] |}).
Proof.
  intros Hs Hd Hwm Hwc Hww. rewrite prune_unfold. cbv zeta.
  unfold np_squeeze in *. cbn [shape data elementwise] in *.
  rewrite Hs, Hd. cbn [fmap list_fmap].
  rewrite !getitem_mask_0d by done.
  rewrite Hd. now destruct (fgt w threshold).
Qed.

End BirthAndPrune.

(** ** The Poisson intensity: concrete runs *)

Section PruningRuns.
Import PoissonRFS.

Lemma zero_above_minus_one : fgt (Fin 0) (Fin (-1)) = true.
Proof. apply bool_decide_eq_true_2. lra. Qed.

(** A missed detection with detection probability 1 leaves the single
    component of weight 1 with the log-weight [-inf]. *)
Lemma certain_detection_exhausts :
  after (undetected_update (Fin 1)) Fixture.lone = Fixture.exhausted.
Proof.
  unfold after, undetected_update, mbind, M_bind, get, put. cbn [snd fst].
  assert (np_log (Fin 1 - Fin 1) = NInf) as ->; [|reflexivity].
  cbn [fsub fadd fneg np_log]. repeat case_decide; try reflexivity; lra.
Qed.

(** C8, a run that removes a component: an intensity whose only component
    has log-weight [-inf] takes a birth component of log-weight 0; of the
    two components [prune(-inf)] keeps one. *)
Lemma birth_then_prune_removes_exhausted :
  after (prune NInf) (after (birth Fixture.newborn) Fixture.exhausted)
  <> after (birth Fixture.newborn) Fixture.exhausted.
Proof.
  intros Heq.
  apply (f_equal (fun s => shape (weigths_log (intensity s)))) in Heq.
  vm_compute in Heq. discriminate.
Qed.

(** C9, at a mixture of a single component of log-weight 0 and the
    threshold -1: the component is kept, but the log-weights have shape
    (1, 1) after one [prune] and shape (1, 1, 1) after two. *)
Theorem prune_twice_single_component :
  weigths_log (intensity (after (prune (Fin (-1))) Fixture.lone))
  = mk_ndarray [1; 1] [Fin 0]
  /\ weigths_log (intensity (after (prune (Fin (-1)))
                               (after (prune (Fin (-1))) Fixture.lone)))
     = mk_ndarray [1; 1; 1] [Fin 0].
Proof.
  unfold after.
  rewrite (prune_single Fixture.lone _ (Fin 0)) by reflexivity.
  rewrite zero_above_minus_one. split; [reflexivity|]. cbn [snd].
  rewrite (prune_single _ _ (Fin 0)) by reflexivity.
  rewrite zero_above_minus_one. reflexivity.
Qed.

End PruningRuns.

(** ** Log-domain arithmetic *)

Section LogDomain.
Local Open Scope R_scope.

Lemma log_value_inv (a : float) :
  is_log_value a = true -> a = NInf \/ exists x, a = Fin x.
Proof. destruct a; try discriminate; eauto. Qed.

Lemma fadd_log_value (a b : float) :
  is_log_value a = true -> is_log_value b = true -> is_log_value (fadd a b) = true.
Proof. now destruct a, b. Qed.

Lemma np_log_probability (p : float) :
  in_unit_interval p -> is_log_value (np_log p) = true.
Proof.
  destruct p as [| |x|]; simpl; try tauto. intros [H0 H1].
  repeat case_decide; try reflexivity. lra.
Qed.

Lemma np_log_positive (c : R) : 0 < c -> np_log (Fin c) = Fin (ln c).
Proof. intros Hc. simpl. case_decide; [reflexivity | lra]. Qed.

(** The sum of the exponentials of log-values is a non-negative real. *)
Lemma fsum_exp_log_values (l : list float) :
  Forall (fun w => is_log_value w = true) l ->
  exists s, fsum (np_exp <$> l) = Fin s /\ 0 <= s.
Proof.
  induction 1 as [|w l Hw _ (s & Hs & Hpos)].
  - exists 0. split; [reflexivity | lra].
  - rewrite fmap_cons. cbn [fsum foldr]. fold (fsum (np_exp <$> l)). rewrite Hs.
    destruct (log_value_inv _ Hw) as [->|[x ->]]; simpl.
    + exists (0 + s). split; [reflexivity | lra].
    + exists (exp x + s). split; [reflexivity|]. pose proof (exp_pos x). lra.
Qed.

Lemma logsumexp_log_value (l : list float) :
  Forall (fun w => is_log_value w = true) l -> is_log_value (logsumexp l) = true.
Proof.
  intros Hl. unfold logsumexp.
  destruct (fsum_exp_log_values l Hl) as (s & -> & Hs). simpl.
  repeat case_decide; try reflexivity. lra.
Qed.

Lemma exp_nonpos_le_1 (x : R) : x <= 0 -> 0 <= exp x <= 1.
Proof.
  intros Hx. pose proof (exp_pos x). split; [lra|].
  destruct Hx as [Hlt | ->].
  - apply exp_increasing in Hlt. rewrite exp_0 in Hlt. lra.
  - rewrite exp_0. lra.
Qed.

(** The heart of C10: for a log-sum that is finite or [-inf] and a
    positive clutter intensity, [exp(log_sum - logsumexp([log_sum,
    log(clutter_intensity)]))] is a probability. *)
Lemma existence_ratio_in_range (log_sum : float) (c : R) :
  is_log_value log_sum = true -> 0 < c ->
  in_unit_interval
    (np_exp (log_sum - logsumexp [log_sum; np_log (Fin c)])%float).
Proof.
  intros Hls Hc. rewrite np_log_positive by exact Hc.
  unfold logsumexp. cbn [fmap list_fmap fsum foldr np_exp].
  rewrite exp_ln by exact Hc.
  destruct (log_value_inv _ Hls) as [->|[a ->]]; cbn [np_exp fadd].
  - rewrite np_log_positive by lra. simpl. lra.
  - pose proof (exp_pos a) as Ha.
    rewrite np_log_positive by lra. cbn [fsub fneg fadd np_exp in_unit_interval].
    apply exp_nonpos_le_1.
    assert (ln (exp a) < ln (exp a + (c + 0))) as Hln
      by (apply ln_increasing; lra).
    rewrite ln_exp in Hln. lra.
Qed.

End LogDomain.

(** ** Broadcasting keeps the elements *)

Section Broadcasting.
Context {A : Type} (P : A -> Prop).

Lemma Forall_chunks row n (d : list A) :
  Forall P d -> Forall (Forall P) (chunks row n d).
Proof.
  revert d. induction n as [|n IH]; intros d Hd; simpl; constructor.
  - now apply Forall_take.
  - apply IH. now apply Forall_drop.
Qed.

Lemma Forall_expand (s t : list nat) (d : list A) :
  Forall P d -> Forall P (expand s t d).
Proof.
  revert t d. induction s as [|n s IH]; intros t d Hd; simpl; [exact Hd|].
  destruct t as [|m t]; [exact Hd|].
  case_decide.
  - apply Forall_concat, Forall_fmap.
    eapply Forall_impl; [apply Forall_chunks, Hd|]. intros c Hc. now apply IH.
  - apply Forall_concat, Forall_replicate. now apply IH.
Qed.

Lemma Forall_broadcast_to t (a : ndarray A) :
  Forall P (data a) -> Forall P (broadcast_to t a).
Proof. apply Forall_expand. Qed.

End Broadcasting.

Lemma Forall_zip_with_both {A B C} (f : A -> B -> C)
  (P : A -> Prop) (Q : B -> Prop) (R : C -> Prop) l k :
  (forall x y, P x -> Q y -> R (f x y)) ->
  Forall P l -> Forall Q k -> Forall R (zip_with f l k).
Proof.
  intros Hf Hl. revert k. induction Hl as [|x l Hx _ IH]; intros k Hk; simpl.
  - constructor.
  - destruct Hk as [|y k Hy Hk]; constructor; auto.
Qed.

Lemma broadcast2_log_values (a b w : ndarray float) :
  log_values a -> log_values b -> broadcast2 fadd a b = Ok w -> log_values w.
Proof.
  unfold log_values, broadcast2. intros Ha Hb.
  destruct (broadcast_shapes _ _) as [t|]; [|discriminate].
  intros [= <-]. simpl.
  eapply Forall_zip_with_both; [apply fadd_log_value | |];
    now apply Forall_broadcast_to.
Qed.

(** ** First detections: one measurement *)

Section DetectedUpdate.
Context `{Collaborators} (GaussianDensity : DensityEngine).
Implicit Types (intensity : GaussianMixtureNumpy) (sth : SingleTargetHypothesis).

Import PoissonRFS.

Lemma posterior_log_weights_fit intensity meas_model measurement detection_probability :
  likelihoods_fit GaussianDensity intensity meas_model measurement ->
  exists log_weights,
    posterior_log_weights intensity
      (loglikelihoods_of GaussianDensity intensity measurement meas_model)
      detection_probability
    = Ok log_weights.
Proof.
  intros [_ [weighted Hw]]. unfold posterior_log_weights.
  rewrite Hw. eexists. reflexivity.
Qed.

(** With a measurement model and an engine that answers in the shape of
    the mixture, [detected_update] returns, and this is what it returns. *)
Lemma detected_update_returns meas_idx measurement intensity meas_model
  detection_probability clutter_intensity density log_weights :
  isinstance_MeasurementModel meas_model = true ->
  likelihoods_fit GaussianDensity intensity meas_model measurement ->
  posterior_log_weights intensity
    (loglikelihoods_of GaussianDensity intensity measurement meas_model)
    detection_probability
  = Ok log_weights ->
  detected_update GaussianDensity (meas_idx, measurement) intensity meas_model
    detection_probability clutter_intensity density
  = let log_sum := snd (normalize_log_weights log_weights) in
    let log_likelihood := logsumexp [log_sum; np_log clutter_intensity] in
    Ok {| bernoulli :=
            Bernoulli.mk
              (moment_matching_vectorized density
                 (fst (normalize_log_weights log_weights))
                 (fst (update_states_with_likelihoods_by_single_measurement
                         GaussianDensity intensity measurement meas_model)))
              (np_exp (log_sum - log_likelihood));
          log_likelihood := log_likelihood;
          cost := (- log_likelihood)%float;
          meas_idx := meas_idx;
          sth_id := 0 |}.
Proof.
  intros Hmodel [(n & Hn & Hk) _] Hlw.
  unfold posterior_log_weights, loglikelihoods_of in *.
  unfold detected_update. rewrite Hmodel. cbn [assert mbind result_bind].
  destruct (update_states_with_likelihoods_by_single_measurement _ _ _ _)
    as [updated_ppp_components loglikelihoods]. cbn [fst snd] in *.
  rewrite Hn, Hk. cbn [mbind result_bind]. rewrite Nat.eqb_refl. cbn [assert].
  destruct (broadcast2 fadd _ _) as [weighted|]; [|discriminate].
  cbn [mbind result_bind] in *. injection Hlw as <-.
  reflexivity.
Qed.

(** C10.  For a non-empty mixture and a positive clutter intensity the
    Bernoulli that [detected_update] returns has its existence probability
    in [0, 1]; log-weights and log-likelihoods are finite or [-inf], the
    detection probability is a probability. *)
Theorem detected_update_existence_in_range meas_idx measurement intensity
  meas_model detection_probability (clutter_intensity : R) density n :
  isinstance_MeasurementModel meas_model = true ->
  likelihoods_fit GaussianDensity intensity meas_model measurement ->
  GaussianMixtureNumpy__len__ intensity = Ok n -> 0 < n ->
  (0 < clutter_intensity)%R ->
  in_unit_interval detection_probability ->
  log_values (weigths_log intensity) ->
  log_values (loglikelihoods_of GaussianDensity intensity measurement meas_model) ->
  exists sth,
    detected_update GaussianDensity (meas_idx, measurement) intensity meas_model
      detection_probability (Fin clutter_intensity) density = Ok sth
    /\ in_unit_interval (Bernoulli.existence_probability (bernoulli sth)).
Proof.
  intros Hmodel Hfit _ _ Hc Hpd Hws Hls.
  destruct (posterior_log_weights_fit _ _ _ detection_probability Hfit)
    as [log_weights Hlw].
  pose proof (detected_update_returns meas_idx _ _ _ _ (Fin clutter_intensity)
                density _ Hmodel Hfit Hlw) as Hret.
  cbv zeta in Hret. eexists. split; [exact Hret|].
  cbn [bernoulli Bernoulli.existence_probability].
  apply existence_ratio_in_range; [|exact Hc].
  unfold normalize_log_weights. cbn [snd]. apply logsumexp_log_value.
  unfold posterior_log_weights in Hlw.
  destruct (broadcast2 fadd _ _) as [weighted|] eqn:Hw; [|discriminate].
  injection Hlw as <-. cbn [elementwise data]. apply Forall_fmap.
  eapply Forall_impl; [exact (broadcast2_log_values _ _ _ Hws Hls Hw)|].
  intros w Hwv. cbn beta. apply fadd_log_value; [exact Hwv|].
  now apply np_log_probability.
Qed.

End DetectedUpdate.

(** ** First detections: a list of measurements *)

Section FirstDetections.
Context `{Collaborators} (GaussianDensity : DensityEngine).
Implicit Types (self : PoissonRFS.t) (sth : SingleTargetHypothesis)
  (tracks : gmap nat Track) (assigned : gset nat).

Import PoissonRFS.

Lemma comprehension_Forall2 {A} (f : nat -> result A) range xs :
  comprehension f range = Ok xs -> Forall2 (fun i x => f i = Ok x) range xs.
Proof.
  revert xs. induction range as [|i range IH]; intros xs; simpl.
  - intros [= <-]. constructor.
  - destruct (f i) as [x|] eqn:Hx; [|discriminate]. cbn [mbind result_bind].
    destruct (comprehension f range) as [xs'|]; [|discriminate].
    intros [= <-]. constructor; auto.
Qed.

Lemma comprehension_returns {A} (f : nat -> result A) range :
  Forall (fun i => exists x, f i = Ok x) range ->
  exists xs, comprehension f range = Ok xs.
Proof.
  induction 1 as [|i range [x Hx] _ [xs Hxs]]; simpl.
  - eexists. reflexivity.
  - rewrite Hx. cbn [mbind result_bind]. rewrite Hxs. eexists. reflexivity.
Qed.

Lemma hypotheses_insert tracks new_id sth :
  tracks !! new_id = None ->
  hypotheses (<[new_id := {| track_id := new_id;
                             single_target_hypotheses := {[sth_id sth := sth]} |}]> tracks)
  ≡ₚ sth :: hypotheses tracks.
Proof.
  intros Hnew. unfold hypotheses. rewrite map_to_list_insert by exact Hnew.
  cbn [mbind list_bind]. cbn [single_target_hypotheses].
  now rewrite map_to_list_singleton.
Qed.

(** The loop files one track per index, each under an identifier that no
    track has yet. *)
Lemma file_tracks_spec (sths : list SingleTargetHypothesis) range picked :
  Forall2 (fun i sth => sths !! i = Some sth) range picked ->
  forall tracks assigned,
    dom tracks ⊆ assigned ->
    exists tracks' assigned',
      file_tracks sths range tracks assigned = (Ok tracks', assigned')
      /\ size tracks' = size tracks + length range
      /\ dom tracks' ⊆ assigned'
      /\ hypotheses tracks' ≡ₚ hypotheses tracks ++ picked.
Proof.
  induction 1 as [|i sth range picked Hi _ IH]; intros tracks assigned Hdom.
  - exists tracks, assigned. simpl. rewrite app_nil_r, Nat.add_0_r. auto.
  - cbn [file_tracks]. unfold mbind at 1, M_bind, lift, getitem. rewrite Hi.
    unfold Track_from_sth, mbind, M_bind, get, put, mret, M_ret. cbn [fst snd].
    pose proof (is_fresh assigned) as Hfresh.
    assert (tracks !! fresh assigned = None) as Hnone
      by (apply not_elem_of_dom; set_solver).
    destruct (IH (<[fresh assigned :=
                      {| track_id := fresh assigned;
                         single_target_hypotheses := {[sth_id sth := sth]} |}]> tracks)
                 ({[fresh assigned]} ∪ assigned))
      as (tracks' & assigned' & Hrun & Hsize & Hdom' & Hhyp).
    { rewrite dom_insert_L. now apply union_mono_l. }
    exists tracks', assigned'. split; [exact Hrun|].
    rewrite map_size_insert_None in Hsize by exact Hnone.
    split; [simpl; lia|]. split; [exact Hdom'|].
    rewrite Hhyp, hypotheses_insert by exact Hnone.
    simpl. apply Permutation_middle.
Qed.

Lemma seq_picks_all {A} (l : list A) :
  Forall2 (fun i x => l !! i = Some x) (seq 0 (length l)) l.
Proof.
  apply Forall2_same_length_lookup_2.
  - now rewrite length_seq.
  - intros i j x Hj Hx. apply lookup_seq in Hj as [-> _]. exact Hx.
Qed.

Lemma detected_update_meas_idx meas intensity meas_model detection_probability
  clutter_intensity density sth :
  detected_update GaussianDensity meas intensity meas_model detection_probability
    clutter_intensity density = Ok sth ->
  meas_idx sth = fst meas.
Proof.
  unfold detected_update. destruct meas as [i z].
  destruct (assert _); [|discriminate]. cbn [mbind result_bind].
  destruct (update_states_with_likelihoods_by_single_measurement _ _ _ _).
  destruct (GaussianMixtureNumpy__len__ _); [|discriminate].
  cbn [mbind result_bind]. destruct (len _); [|discriminate].
  cbn [mbind result_bind]. destruct (assert _); [|discriminate].
  cbn [mbind result_bind]. destruct (broadcast2 _ _ _); [|discriminate].
  cbn [mbind result_bind]. cbv zeta. destruct (normalize_log_weights _).
  destruct (Bernoulli.__init__ _ _); [|discriminate].
  cbn [mbind result_bind]. intros [= <-]. reflexivity.
Qed.

(** A measurement model gets its Kalman gain. *)
Lemma call_numpy_get_Kalman_gain_model (density : DensityEngine)
  (mixture : GaussianMixtureNumpy) meas_model :
  isinstance_MeasurementModel meas_model = true ->
  call_numpy_get_Kalman_gain density mixture meas_model
  = Ok (numpy_get_Kalman_gain density mixture meas_model).
Proof. intros Hmodel. unfold call_numpy_get_Kalman_gain. now rewrite Hmodel. Qed.

(** With a measurement model and an engine that answers in the shape of
    the mixture, [get_targets_detected_for_first_time] returns one track
    per measurement, holding the hypothesis that [detected_update] makes of
    this measurement. *)
Lemma get_targets_returns self measurements clutter_intensity meas_model
  detection_probability assigned :
  isinstance_MeasurementModel meas_model = true ->
  Forall (likelihoods_fit GaussianDensity (intensity self) meas_model) measurements ->
  exists tracks assigned' sths,
    get_targets_detected_for_first_time GaussianDensity self measurements
      clutter_intensity meas_model detection_probability assigned
    = (Ok tracks, assigned')
    /\ size tracks = length measurements
    /\ hypotheses tracks ≡ₚ sths
    /\ Forall2 (fun i sth =>
                  first_detection GaussianDensity self measurements clutter_intensity meas_model
                    detection_probability i = Ok sth)
         (seq 0 (length measurements)) sths.
Proof.
  intros Hmodel Hfit.
  destruct (comprehension_returns
              (first_detection GaussianDensity self measurements clutter_intensity meas_model
                 detection_probability) (seq 0 (length measurements)))
    as [sths Hsths].
  { apply List.Forall_forall. intros i Hi%List.in_seq.
    destruct (lookup_lt_is_Some_2 measurements i) as [z Hz]; [lia|].
    unfold first_detection, getitem. rewrite Hz. cbn [mbind result_bind].
    assert (likelihoods_fit GaussianDensity (intensity self) meas_model z) as Hz'
      by (eapply Forall_lookup_1; eassumption).
    destruct (posterior_log_weights_fit _ _ _ _ detection_probability Hz')
      as [log_weights Hlw].
    rewrite (detected_update_returns _ i z _ _ _ clutter_intensity
               GaussianDensity log_weights Hmodel Hz' Hlw).
    cbv zeta. eexists. reflexivity. }
  pose proof (comprehension_Forall2 _ _ _ Hsths) as Hall.
  assert (length sths = length measurements) as Hlen
    by (apply Forall2_length in Hall; rewrite length_seq in Hall; lia).
  destruct (file_tracks_spec sths (seq 0 (length measurements)) sths) with
    (tracks := (∅ : gmap nat Track)) (assigned := assigned)
    as (tracks & assigned' & Hrun & Hsize & _ & Hhyp).
  { rewrite <- Hlen. apply seq_picks_all. }
  { rewrite dom_empty_L. set_solver. }
  exists tracks, assigned', sths.
  unfold get_targets_detected_for_first_time.
  rewrite (call_numpy_get_Kalman_gain_model _ _ _ Hmodel).
  destruct (numpy_get_Kalman_gain _ _ _) as [[H_x S_] K].
  unfold mbind, M_bind, lift. cbn [fst snd]. fold (first_detection GaussianDensity self measurements
    clutter_intensity meas_model detection_probability).
  change (comprehension _ _) with
    (comprehension (first_detection GaussianDensity self measurements clutter_intensity meas_model
                      detection_probability) (seq 0 (length measurements))).
  rewrite Hsths, Hrun. split; [reflexivity|].
  rewrite map_size_empty, length_seq in Hsize. split; [lia|].
  split; [|exact Hall].
  rewrite Hhyp. unfold hypotheses. now rewrite map_to_list_empty.
Qed.


Lemma first_detection_inv self measurements clutter_intensity meas_model
  detection_probability i sth :
  isinstance_MeasurementModel meas_model = true ->
  Forall (likelihoods_fit GaussianDensity (intensity self) meas_model) measurements ->
  first_detection GaussianDensity self measurements clutter_intensity meas_model
    detection_probability i = Ok sth ->
  meas_idx sth = i
  /\ exists measurement log_weights,
       measurements !! i = Some measurement
       /\ posterior_log_weights (intensity self)
            (loglikelihoods_of GaussianDensity (intensity self) measurement meas_model)
            detection_probability
          = Ok log_weights
       /\ likelihood_and_existence log_weights clutter_intensity sth.
Proof.
  intros Hmodel Hfit. unfold first_detection, getitem.
  destruct (measurements !! i) as [z|] eqn:Hz; [|discriminate].
  cbn [mbind result_bind]. intros Hdet.
  split; [exact (detected_update_meas_idx _ _ _ _ _ _ _ Hdet)|].
  assert (likelihoods_fit GaussianDensity (intensity self) meas_model z) as Hz'
    by (eapply Forall_lookup_1; eassumption).
  destruct (posterior_log_weights_fit _ _ _ _ detection_probability Hz')
    as [log_weights Hlw].
  exists z, log_weights. split; [reflexivity|]. split; [exact Hlw|].
  rewrite (detected_update_returns _ i z _ _ _ clutter_intensity
             GaussianDensity log_weights Hmodel Hz' Hlw) in Hdet.
  cbv zeta in Hdet. injection Hdet as <-. split; reflexivity.
Qed.

Lemma Forall2_fmap_eq {A B} (f : B -> A) (l : list A) (k : list B) :
  Forall2 (fun x y => f y = x) l k -> f <$> k = l.
Proof.
  induction 1 as [|x y l k <- _ IH]; [reflexivity|]. now rewrite fmap_cons, IH.
Qed.

Lemma Forall2_Forall_r {A B} (P : A -> B -> Prop) l k :
  Forall2 P l k -> Forall (fun y => exists x, P x y) k.
Proof. induction 1; constructor; eauto. Qed.

(** C1.  The hypothesis that [detected_update] returns for a measurement
    has [log_likelihood = logsumexp([log_sum, log(clutter_intensity)])], and
    its Bernoulli has existence probability [exp(log_sum -
    log_likelihood)], where [log_sum] is the log-sum that normalising the
    posterior log-weights of the components gives; and so has every
    hypothesis of the tracks that [get_targets_detected_for_first_time]
    returns, for the measurement of its index. *)
Theorem first_detection_likelihood_and_existence meas_model detection_probability
  clutter_intensity :
  isinstance_MeasurementModel meas_model = true ->
  (forall meas_idx measurement intensity density,
      likelihoods_fit GaussianDensity intensity meas_model measurement ->
      exists sth log_weights,
        detected_update GaussianDensity (meas_idx, measurement) intensity meas_model
          detection_probability clutter_intensity density = Ok sth
        /\ posterior_log_weights intensity
             (loglikelihoods_of GaussianDensity intensity measurement meas_model)
             detection_probability
           = Ok log_weights
        /\ likelihood_and_existence log_weights clutter_intensity sth)
  /\ (forall self measurements assigned,
         Forall (likelihoods_fit GaussianDensity (intensity self) meas_model)
           measurements ->
         exists tracks assigned',
           get_targets_detected_for_first_time GaussianDensity self measurements
             clutter_intensity meas_model detection_probability assigned
           = (Ok tracks, assigned')
           /\ Forall (fun sth =>
                        exists measurement log_weights,
                          measurements !! meas_idx sth = Some measurement
                          /\ posterior_log_weights (intensity self)
                               (loglikelihoods_of GaussianDensity (intensity self)
                                  measurement meas_model)
                               detection_probability
                             = Ok log_weights
                          /\ likelihood_and_existence log_weights clutter_intensity sth)
                (hypotheses tracks)).
Proof.
  intros Hmodel. split.
  - intros meas_idx measurement intensity density Hfit.
    destruct (posterior_log_weights_fit _ _ _ _ detection_probability Hfit)
      as [log_weights Hlw].
    pose proof (detected_update_returns _ meas_idx _ _ _ _ clutter_intensity density _
                  Hmodel Hfit Hlw) as Hret.
    cbv zeta in Hret. eexists _, log_weights.
    split; [exact Hret|]. split; [exact Hlw|]. split; reflexivity.
  - intros self measurements assigned Hfit.
    destruct (get_targets_returns self measurements clutter_intensity meas_model
                detection_probability assigned Hmodel Hfit)
      as (tracks & assigned' & sths & Hrun & _ & Hhyp & Hall).
    exists tracks, assigned'. split; [exact Hrun|].
    rewrite Hhyp. apply Forall2_Forall_r in Hall.
    eapply Forall_impl; [exact Hall|]. intros sth [i Hi]. cbn beta in Hi.
    destruct (first_detection_inv _ _ _ _ _ _ _ Hmodel Hfit Hi)
      as (-> & z & log_weights & Hz & Hlw & Hform).
    exists z, log_weights. auto.
Qed.

(** C2.  For a list of [n] measurements
    [get_targets_detected_for_first_time] returns a mapping of [n] tracks,
    and the measurement indices of their hypotheses are [0 .. n-1] in some
    order. *)
Theorem get_targets_one_track_per_measurement self measurements clutter_intensity
  meas_model detection_probability assigned :
  isinstance_MeasurementModel meas_model = true ->
  Forall (likelihoods_fit GaussianDensity (intensity self) meas_model) measurements ->
  exists tracks assigned',
    get_targets_detected_for_first_time GaussianDensity self measurements
      clutter_intensity meas_model detection_probability assigned
    = (Ok tracks, assigned')
    /\ size tracks = length measurements
    /\ hypotheses_meas_idx tracks ≡ₚ seq 0 (length measurements).
Proof.
  intros Hmodel Hfit.
  destruct (get_targets_returns self measurements clutter_intensity meas_model
              detection_probability assigned Hmodel Hfit)
    as (tracks & assigned' & sths & Hrun & Hsize & Hhyp & Hall).
  exists tracks, assigned'. split; [exact Hrun|]. split; [exact Hsize|].
  unfold hypotheses_meas_idx. rewrite Hhyp.
  rewrite (Forall2_fmap_eq meas_idx (seq 0 (length measurements)) sths);
    [reflexivity|].
  eapply Forall2_impl; [exact Hall|]. intros i sth Hi.
  now destruct (first_detection_inv _ _ _ _ _ _ _ Hmodel Hfit Hi) as [-> _].
Qed.

End FirstDetections.

(** ** The properties at work in the concrete setting *)

Section Instances.
Import PoissonRFS.

Lemma fixture_keeps_rows : keeps_rows Fixture.engine.
Proof. intros ms cs motion_model dt. split; reflexivity. Qed.



Lemma detected_update_state_certain_witness :
  isinstance_MeasurementModel true = true
  /\ Bernoulli.detected_update_state Fixture.doubtful tt true Fixture.engine
     = Ok Fixture.certain.
Proof.
  split; [reflexivity|].
  apply (detected_update_state_certain Fixture.doubtful tt true Fixture.engine).
  reflexivity.
Defined.

Lemma mutators_keep_parallel_arrays_witness :
  parallel_arrays (intensity Fixture.lone)
  /\ parallel_arrays
       (intensity (after (predict tt (Fin (9/10)) Fixture.engine (Fin 1)) Fixture.lone))
  /\ parallel_arrays (intensity (after (birth Fixture.newborn) Fixture.lone))
  /\ parallel_arrays (intensity (after (prune (Fin (-1))) Fixture.lone))
  /\ parallel_arrays (intensity (after (undetected_update (Fin (9/10))) Fixture.lone)).
Proof.
  assert (parallel_arrays (intensity Fixture.lone)) as Hinv
    by (exists 1; repeat split; reflexivity).
  destruct (mutators_keep_parallel_arrays Fixture.lone Hinv)
    as (Hpredict & Hbirth & Hprune & Hundetected).
  split; [exact Hinv|]. split; [|split; [|split]].
  - apply Hpredict. exact fixture_keeps_rows.
  - apply Hbirth. exists 1. repeat split; reflexivity.
  - apply Hprune.
  - apply Hundetected.
Defined.

Lemma birth_then_prune_neg_infinity_witness :
  proper (intensity Fixture.lone) 1 /\ proper Fixture.newborn 1
  /\ returned (birth Fixture.newborn) Fixture.lone = Ok tt
  /\ 1 + 1 <> 1
  /\ Forall (kept NInf) (data (weigths_log (intensity Fixture.lone)))
  /\ Forall (kept NInf) (data (weigths_log Fixture.newborn))
  /\ prune NInf (after (birth Fixture.newborn) Fixture.lone)
     = (Ok tt, after (birth Fixture.newborn) Fixture.lone).
Proof.
  assert (proper (Fixture.mixture [Fin 0]) 1) as Hp.
  { unfold proper, well_shaped. simpl. repeat split; eauto. }
  assert (Forall (kept NInf) [Fin 0]) as Hkept
    by (repeat constructor).
  split; [exact Hp|]. split; [exact Hp|]. split; [reflexivity|].
  split; [lia|]. split; [exact Hkept|]. split; [exact Hkept|].
  apply (birth_then_prune_neg_infinity Fixture.lone Fixture.newborn 1 1);
    [exact Hp | exact Hp | reflexivity | lia | exact Hkept | exact Hkept].
Defined.


Lemma fixture_fit :
  likelihoods_fit Fixture.engine (intensity Fixture.lone) true tt.
Proof. split; [exists 1; split; reflexivity | eexists; reflexivity]. Qed.

Lemma first_detection_likelihood_and_existence_witness :
  isinstance_MeasurementModel true = true
  /\ (exists sth log_weights,
         detected_update Fixture.engine (0, tt) (intensity Fixture.lone) true
           Fixture.detection_probability (Fin Fixture.clutter_intensity)
           Fixture.engine = Ok sth
         /\ posterior_log_weights (intensity Fixture.lone)
              (loglikelihoods_of Fixture.engine (intensity Fixture.lone) tt true)
              Fixture.detection_probability
            = Ok log_weights
         /\ likelihood_and_existence log_weights (Fin Fixture.clutter_intensity) sth)
  /\ (exists tracks assigned',
         get_targets_detected_for_first_time Fixture.engine Fixture.lone [tt; tt]
           (Fin Fixture.clutter_intensity) true Fixture.detection_probability ∅
         = (Ok tracks, assigned')
         /\ Forall (fun sth =>
                      exists measurement log_weights,
                        [tt; tt] !! meas_idx sth = Some measurement
                        /\ posterior_log_weights (intensity Fixture.lone)
                             (loglikelihoods_of Fixture.engine (intensity Fixture.lone)
                                measurement true)
                             Fixture.detection_probability
                           = Ok log_weights
                        /\ likelihood_and_existence log_weights
                             (Fin Fixture.clutter_intensity) sth)
              (hypotheses tracks)).
Proof.
  assert (isinstance_MeasurementModel true = true) as Hmodel by reflexivity.
  destruct (first_detection_likelihood_and_existence Fixture.engine true
              Fixture.detection_probability (Fin Fixture.clutter_intensity) Hmodel)
    as [Hone Hall].
  split; [exact Hmodel|]. split.
  - apply Hone. exact fixture_fit.
  - apply Hall. repeat (constructor; [exact fixture_fit|]). constructor.
Defined.

Lemma get_targets_one_track_per_measurement_witness :
  isinstance_MeasurementModel true = true
  /\ Forall (likelihoods_fit Fixture.engine (intensity Fixture.lone) true) [tt; tt; tt]
  /\ exists tracks assigned',
       get_targets_detected_for_first_time Fixture.engine Fixture.lone [tt; tt; tt]
         (Fin Fixture.clutter_intensity) true Fixture.detection_probability ∅
       = (Ok tracks, assigned')
       /\ size tracks = 3
       /\ hypotheses_meas_idx tracks ≡ₚ [0; 1; 2].
Proof.
  assert (Forall (likelihoods_fit Fixture.engine (intensity Fixture.lone) true)
            [tt; tt; tt]) as Hfit
    by (repeat (constructor; [exact fixture_fit|]); constructor).
  split; [reflexivity|]. split; [exact Hfit|].
  apply (get_targets_one_track_per_measurement Fixture.engine Fixture.lone
           [tt; tt; tt] (Fin Fixture.clutter_intensity) true
           Fixture.detection_probability ∅);
    [reflexivity | exact Hfit].
Defined.

Lemma detected_update_existence_in_range_witness :
  isinstance_MeasurementModel true = true
  /\ likelihoods_fit Fixture.engine (intensity Fixture.lone) true tt
  /\ GaussianMixtureNumpy__len__ (intensity Fixture.lone) = Ok 1
  /\ 0 < 1
  /\ (0 < Fixture.clutter_intensity)%R
  /\ in_unit_interval Fixture.detection_probability
  /\ log_values (weigths_log (intensity Fixture.lone))
  /\ log_values (loglikelihoods_of Fixture.engine (intensity Fixture.lone) tt true)
  /\ exists sth,
       detected_update Fixture.engine (0, tt) (intensity Fixture.lone) true
         Fixture.detection_probability (Fin Fixture.clutter_intensity)
         Fixture.engine = Ok sth
       /\ in_unit_interval (Bernoulli.existence_probability (bernoulli sth)).
Proof.
  pose proof fixture_fit as Hfit.
  assert (0 < Fixture.clutter_intensity)%R as Hc
    by (unfold Fixture.clutter_intensity; lra).
  assert (in_unit_interval Fixture.detection_probability) as Hpd
    by (simpl; lra).
  assert (log_values (weigths_log (intensity Fixture.lone))) as Hws
    by (repeat constructor).
  assert (log_values (loglikelihoods_of Fixture.engine (intensity Fixture.lone) tt true))
    as Hls by (repeat constructor).
  split; [reflexivity|]. split; [exact Hfit|]. split; [reflexivity|].
  split; [lia|]. split; [exact Hc|]. split; [exact Hpd|].
  split; [exact Hws|]. split; [exact Hls|].
  apply (detected_update_existence_in_range Fixture.engine 0 tt
           (intensity Fixture.lone) true Fixture.detection_probability
           Fixture.clutter_intensity Fixture.engine 1);
    [reflexivity | exact Hfit | reflexivity | lia | exact Hc | exact Hpd
    | exact Hws | exact Hls].
Defined.

End Instances.

(** * Further properties *)

(** ** Bernoulli components: errors and neutral arguments *)

Section BernoulliFurther.
Context `{Collaborators}.
Local Open Scope R_scope.

Lemma fadd_zero_r (a : float) : fadd a (Fin 0) = a.
Proof. destruct a as [| |x|]; try reflexivity. simpl. f_equal. lra. Qed.

Lemma np_log_one : np_log (Fin 1) = Fin 0.
Proof. rewrite np_log_positive by lra. now rewrite ln_1. Qed.

Lemma np_log_zero : np_log (Fin 0) = NInf.
Proof. simpl. repeat case_decide; try reflexivity; lra. Qed.

Lemma fadd_neg_infinity (a : float) : is_log_value a = true -> fadd a NInf = NInf.
Proof. now destruct a. Qed.

Lemma elementwise_id {A} (f : A -> A) (a : ndarray A) :
  (forall x, f x = x) -> elementwise f a = a.
Proof.
  intros Hf. destruct a as [s d]. unfold elementwise. simpl. f_equal.
  induction d as [|x d IH]; [reflexivity|]. rewrite fmap_cons, Hf. now f_equal.
Qed.

(** X1.  For an existence probability [r] and a detection probability [p]
    in [0, 1], [undetected_update] raises [ZeroDivisionError] exactly when
    [r = 1] and [p = 1] and both are Python floats, and [TypeError] in
    every other case: with a [numpy.float64] among them it is [TypeError]
    whatever [r] and [p] are. *)
Theorem undetected_update_errors (numbers : scalar_type) (g : Gaussian) (r p : R) :
  0 <= r <= 1 -> 0 <= p <= 1 ->
  (Bernoulli.undetected_update numbers (Bernoulli.mk g (Fin r)) (Fin p)
   = Raise ZeroDivisionError <-> numbers = PythonFloat /\ r = 1 /\ p = 1)
  /\ (Bernoulli.undetected_update numbers (Bernoulli.mk g (Fin r)) (Fin p)
      = Raise TypeError <-> ~ (numbers = PythonFloat /\ r = 1 /\ p = 1)).
Proof.
  intros Hr Hp. unfold Bernoulli.undetected_update.
  destruct numbers; unfold divide; cbn [mbind result_bind].
  - unfold truediv.
    cbn [fsub fadd fmul fneg Bernoulli.existence_probability Bernoulli.state].
    case_decide as Hz; cbn [mbind result_bind].
    + assert (r = 1 /\ p = 1) as Hone by (split; nra).
      split; split; try tauto; discriminate.
    + assert (~ (r = 1 /\ p = 1)) as Hnot by (intros [-> ->]; apply Hz; lra).
      rewrite init_rejects_initial_state.
      split; split; try tauto; discriminate.
  - rewrite init_rejects_initial_state.
    split; split; try discriminate; try tauto.
    + intros [Hnumbers _]. discriminate.
    + intros _ [Hnumbers _]. discriminate.
Qed.

(** The object after one call of [predict]. *)
Lemma predict_after (self : Bernoulli.t) motion_model survival_probability
  (density : DensityEngine) dt :
  after (Bernoulli.predict motion_model survival_probability density dt) self
  = Bernoulli.mk (density_predict density (Bernoulli.state self) motion_model dt)
                 (Bernoulli.existence_probability self).
Proof. reflexivity. Qed.

(** X2.  However often [predict] is called on a Bernoulli, its existence
    probability stays what it was (the survival probability never reaches
    it), while every call advances its state by one time update. *)
Theorem predict_repeated (n : nat) (self : Bernoulli.t) motion_model
  survival_probability (density : DensityEngine) dt :
  Nat.iter n (after (Bernoulli.predict motion_model survival_probability density dt))
    self
  = Bernoulli.mk
      (Nat.iter n (fun state => density_predict density state motion_model dt)
         (Bernoulli.state self))
      (Bernoulli.existence_probability self).
Proof.
  induction n as [|n IH]; [now destruct self|].
  rewrite !Nat.iter_succ, IH, predict_after. reflexivity.
Qed.

(** X3.  [detected_update_state] and [detected_update_likelihood] return
    exactly when [meas_model] is a [MeasurementModel]; otherwise they raise
    [AssertionError]. *)
Theorem detected_updates_need_a_model (bern : Bernoulli.t) (z : Observation)
  (measurements : list Observation) (meas_model : MeasModel)
  (detection_probability : float) (density : DensityEngine) :
  ((exists b, Bernoulli.detected_update_state bern z meas_model density = Ok b)
   <-> isinstance_MeasurementModel meas_model = true)
  /\ ((exists l, Bernoulli.detected_update_likelihood bern measurements meas_model
                   detection_probability density = Ok l)
      <-> isinstance_MeasurementModel meas_model = true)
  /\ (isinstance_MeasurementModel meas_model = false ->
      Bernoulli.detected_update_state bern z meas_model density
      = Raise AssertionError
      /\ Bernoulli.detected_update_likelihood bern measurements meas_model
           detection_probability density = Raise AssertionError).
Proof.
  unfold Bernoulli.detected_update_state, Bernoulli.detected_update_likelihood.
  destruct (isinstance_MeasurementModel meas_model); cbn [assert mbind result_bind].
  - rewrite init_keywords. cbn [mbind result_bind].
    repeat split; eauto; discriminate.
  - repeat split; try discriminate; intros [? [=]].
Qed.

(** X4.  For a Bernoulli that exists for certain and a detection
    probability of 1, [detected_update_likelihood] returns the
    log-likelihoods of the engine as they are. *)
Theorem detected_update_likelihood_neutral (g : Gaussian)
  (measurements : list Observation) (meas_model : MeasModel)
  (density : DensityEngine) :
  isinstance_MeasurementModel meas_model = true ->
  Bernoulli.detected_update_likelihood (Bernoulli.mk g (Fin 1)) measurements
    meas_model (Fin 1) density
  = Ok (predict_loglikelihood density g measurements meas_model).
Proof.
  intros Hmodel. unfold Bernoulli.detected_update_likelihood. rewrite Hmodel.
  cbn [assert mbind result_bind Bernoulli.existence_probability Bernoulli.state].
  f_equal. apply elementwise_id. intros x.
  now rewrite np_log_one, !fadd_zero_r.
Qed.

(** X5.  For a Bernoulli of existence probability 0 every entry of
    [detected_update_likelihood] is [-inf], when the log-likelihoods of the
    engine are finite or [-inf] and the detection probability is a
    probability; shape and length are those of the engine's array. *)
Theorem detected_update_likelihood_of_nothing (g : Gaussian)
  (measurements : list Observation) (meas_model : MeasModel)
  (detection_probability : float) (density : DensityEngine) :
  isinstance_MeasurementModel meas_model = true ->
  in_unit_interval detection_probability ->
  log_values (predict_loglikelihood density g measurements meas_model) ->
  exists l,
    Bernoulli.detected_update_likelihood (Bernoulli.mk g (Fin 0)) measurements
      meas_model detection_probability density = Ok l
    /\ shape l = shape (predict_loglikelihood density g measurements meas_model)
    /\ length (data l)
       = length (data (predict_loglikelihood density g measurements meas_model))
    /\ Forall (fun x => x = NInf) (data l).
Proof.
  intros Hmodel Hpd Hls. unfold Bernoulli.detected_update_likelihood.
  rewrite Hmodel.
  cbn [assert mbind result_bind Bernoulli.existence_probability Bernoulli.state].
  eexists. split; [reflexivity|]. cbn [elementwise shape data].
  split; [reflexivity|]. split; [now rewrite length_fmap|].
  apply Forall_fmap. eapply Forall_impl; [exact Hls|]. intros x Hx. cbn beta.
  rewrite np_log_zero. apply fadd_neg_infinity, fadd_log_value; [exact Hx|].
  now apply np_log_probability.
Qed.

End BernoulliFurther.

(** ** First detections: when they return and what they cost *)

Section DetectedUpdateFurther.
Context `{Collaborators} (GaussianDensity : DensityEngine).
Implicit Types (intensity : GaussianMixtureNumpy) (sth : SingleTargetHypothesis).
Local Open Scope R_scope.

Import PoissonRFS.

(** If [detected_update] returns, both assertions and the addition of the
    log-likelihoods went through. *)
Lemma detected_update_Ok_inv meas_idx measurement intensity meas_model
  detection_probability clutter_intensity density sth :
  detected_update GaussianDensity (meas_idx, measurement) intensity meas_model
    detection_probability clutter_intensity density = Ok sth ->
  isinstance_MeasurementModel meas_model = true
  /\ likelihoods_fit GaussianDensity intensity meas_model measurement.
Proof.
  unfold detected_update, likelihoods_fit, loglikelihoods_of.
  destruct (isinstance_MeasurementModel meas_model); [|discriminate].
  cbn [assert mbind result_bind].
  destruct (update_states_with_likelihoods_by_single_measurement _ _ _ _)
    as [updated loglikelihoods]. cbn [snd].
  destruct (GaussianMixtureNumpy__len__ _) as [n|]; [|discriminate].
  cbn [mbind result_bind]. destruct (len _) as [k|]; [|discriminate].
  cbn [mbind result_bind]. destruct (Nat.eqb_spec n k) as [->|]; [|discriminate].
  cbn [assert mbind result_bind].
  destruct (broadcast2 _ _ _) as [weighted|]; [|discriminate].
  intros _. split; [reflexivity|]. split; eauto.
Qed.

(** X6.  [detected_update] returns a hypothesis exactly when [meas_model]
    is a [MeasurementModel], the engine reports as many log-likelihoods as
    the mixture has components, and their array can be added to the
    log-weights. *)
Theorem detected_update_returns_iff meas_idx measurement intensity meas_model
  detection_probability clutter_intensity density :
  (exists sth,
      detected_update GaussianDensity (meas_idx, measurement) intensity meas_model
        detection_probability clutter_intensity density = Ok sth)
  <-> isinstance_MeasurementModel meas_model = true
      /\ likelihoods_fit GaussianDensity intensity meas_model measurement.
Proof.
  split.
  - intros [sth Hsth]. eapply detected_update_Ok_inv, Hsth.
  - intros [Hmodel Hfit].
    destruct (posterior_log_weights_fit _ _ _ _ detection_probability Hfit)
      as [log_weights Hlw].
    rewrite (detected_update_returns _ meas_idx _ _ _ _ clutter_intensity density
               log_weights Hmodel Hfit Hlw).
    cbv zeta. eexists. reflexivity.
Qed.

(** X7.  Every hypothesis that [detected_update] returns has [cost =
    -log_likelihood], the identifier 0, and the index of the measurement it
    was made from. *)
Theorem detected_update_bookkeeping (i : nat) measurement intensity meas_model
  detection_probability clutter_intensity density sth :
  detected_update GaussianDensity (i, measurement) intensity meas_model
    detection_probability clutter_intensity density = Ok sth ->
  cost sth = (- log_likelihood sth)%float
  /\ sth_id sth = 0%nat
  /\ meas_idx sth = i.
Proof.
  intros Hsth.
  destruct (detected_update_Ok_inv _ _ _ _ _ _ _ _ Hsth) as [Hmodel Hfit].
  destruct (posterior_log_weights_fit _ _ _ _ detection_probability Hfit)
    as [log_weights Hlw].
  rewrite (detected_update_returns _ i _ _ _ _ clutter_intensity density
             log_weights Hmodel Hfit Hlw) in Hsth.
  cbv zeta in Hsth. injection Hsth as <-. repeat split.
Qed.

Lemma fsum_exp_neg_infinity (l : list float) :
  Forall (fun w => w = NInf) l -> fsum (np_exp <$> l) = Fin 0.
Proof.
  induction 1 as [|w l -> _ IH]; [reflexivity|].
  rewrite fmap_cons. cbn [fsum foldr]. fold (fsum (np_exp <$> l)). rewrite IH.
  simpl. f_equal. lra.
Qed.

Lemma fadd_log_zero (w : float) :
  is_log_value w = true -> fadd w (np_log (Fin 0)) = NInf.
Proof. intros Hw. rewrite np_log_zero. now apply fadd_neg_infinity. Qed.

Lemma logsumexp_clutter_alone (c : R) :
  0 < c -> logsumexp [NInf; np_log (Fin c)] = Fin (ln c).
Proof.
  intros Hc. rewrite np_log_positive by exact Hc. unfold logsumexp.
  cbn [fmap list_fmap fsum foldr np_exp fadd]. rewrite exp_ln by exact Hc.
  rewrite np_log_positive by lra. do 2 f_equal. lra.
Qed.

(** X8.  With a detection probability of 0 the hypothesis that
    [detected_update] returns has existence probability 0 and the
    log-likelihood of clutter alone, [log(clutter_intensity)]. *)
Theorem detected_update_undetectable meas_idx measurement intensity meas_model
  (clutter_intensity : R) density :
  isinstance_MeasurementModel meas_model = true ->
  likelihoods_fit GaussianDensity intensity meas_model measurement ->
  0 < clutter_intensity ->
  log_values (weigths_log intensity) ->
  log_values (loglikelihoods_of GaussianDensity intensity measurement meas_model) ->
  exists sth,
    detected_update GaussianDensity (meas_idx, measurement) intensity meas_model
      (Fin 0) (Fin clutter_intensity) density = Ok sth
    /\ Bernoulli.existence_probability (bernoulli sth) = Fin 0
    /\ log_likelihood sth = Fin (ln clutter_intensity).
Proof.
  intros Hmodel Hfit Hc Hws Hls.
  destruct (posterior_log_weights_fit _ _ _ _ (Fin 0) Hfit) as [log_weights Hlw].
  pose proof (detected_update_returns _ meas_idx _ _ _ _ (Fin clutter_intensity)
                density _ Hmodel Hfit Hlw) as Hret.
  cbv zeta in Hret. eexists. split; [exact Hret|].
  cbn [bernoulli Bernoulli.existence_probability log_likelihood].
  assert (snd (normalize_log_weights log_weights) = NInf) as ->.
  { unfold normalize_log_weights, logsumexp. cbn [snd].
    rewrite fsum_exp_neg_infinity; [apply np_log_zero|].
    unfold posterior_log_weights in Hlw.
    destruct (broadcast2 fadd _ _) as [weighted|] eqn:Hw; [|discriminate].
    injection Hlw as <-. cbn [elementwise data]. apply Forall_fmap.
    eapply Forall_impl; [exact (broadcast2_log_values _ _ _ Hws Hls Hw)|].
    intros w Hwv. exact (fadd_log_zero w Hwv). }
  rewrite logsumexp_clutter_alone by exact Hc. split; reflexivity.
Qed.


End DetectedUpdateFurther.

(** ** First detections: all tracks or none *)

Lemma no_identifier_extends (assigned known : gset nat) :
  known ⊆ assigned ->
  assigned = assigned ∪ known /\ known ∩ assigned = known.
Proof.
  intros Hk. split; apply set_eq; intros x; set_unfold; specialize (Hk x); tauto.
Qed.

Lemma fresh_identifier_extends (assigned known known' : gset nat) (x : nat) :
  x ∉ assigned -> known ⊆ assigned ->
  known' ∩ ({[x]} ∪ assigned) = {[x]} ∪ known ->
  {[x]} ∪ assigned ∪ known' = assigned ∪ known'
  /\ known' ∩ assigned = known.
Proof.
  intros Hx Hk Heq.
  assert (forall y, y ∈ known' /\ (y = x \/ y ∈ assigned) <-> y = x \/ y ∈ known) as Hy.
  { intros y. pose proof (proj1 (set_eq _ _) Heq y) as E. set_unfold in E.
    exact E. }
  pose proof (Hy x) as Hxx.
  split; apply set_eq; intros y; set_unfold; specialize (Hy y); specialize (Hk y).
  - intuition (subst; auto).
  - intuition (subst; auto); tauto.
Qed.

Section FirstDetectionsFurther.
Context `{Collaborators} (GaussianDensity : DensityEngine).
Implicit Types (self : PoissonRFS.t) (sth : SingleTargetHypothesis)
  (tracks : gmap nat Track) (assigned : gset nat).

Import PoissonRFS.

(** The Kalman gain comes first, and the hypotheses are all made before the
    first track is. *)
Lemma get_targets_unfold self measurements clutter_intensity meas_model
  detection_probability assigned :
  get_targets_detected_for_first_time GaussianDensity self measurements
    clutter_intensity meas_model detection_probability assigned
  = match call_numpy_get_Kalman_gain GaussianDensity (intensity self) meas_model with
    | Ok _ =>
        match comprehension
                (first_detection GaussianDensity self measurements clutter_intensity
                   meas_model detection_probability)
                (seq 0 (length measurements)) with
        | Ok sths => file_tracks sths (seq 0 (length measurements)) ∅ assigned
        | Raise e => (Raise e, assigned)
        end
    | Raise e => (Raise e, assigned)
    end.
Proof.
  unfold get_targets_detected_for_first_time.
  destruct (call_numpy_get_Kalman_gain _ _ _) as [[[H_x S_] K]|e]; [|reflexivity].
  unfold mbind, M_bind, lift. cbn [fst snd].
  change (comprehension _ _) with
    (comprehension (first_detection GaussianDensity self measurements
                      clutter_intensity meas_model detection_probability)
       (seq 0 (length measurements))).
  now destruct (comprehension _ _).
Qed.

(** What the loop leaves behind: each track under its own identifier, the
    identifiers of the new tracks assigned by this loop and by no one
    before. *)
Lemma file_tracks_keys (sths : list SingleTargetHypothesis) range picked :
  Forall2 (fun i sth => sths !! i = Some sth) range picked ->
  forall tracks assigned,
    dom tracks ⊆ assigned ->
    (forall id track, tracks !! id = Some track -> track_id track = id) ->
    exists tracks' assigned',
      file_tracks sths range tracks assigned = (Ok tracks', assigned')
      /\ (forall id track, tracks' !! id = Some track -> track_id track = id)
      /\ assigned' = assigned ∪ dom tracks'
      /\ dom tracks' ∩ assigned = dom tracks.
Proof.
  induction 1 as [|i sth range picked Hi _ IH]; intros tracks assigned Hdom Hkeys.
  - exists tracks, assigned. simpl. split; [reflexivity|]. split; [exact Hkeys|].
    exact (no_identifier_extends _ _ Hdom).
  - cbn [file_tracks]. unfold mbind at 1, M_bind, lift, getitem. rewrite Hi.
    unfold Track_from_sth, mbind, M_bind, get, put, mret, M_ret. cbn [fst snd].
    pose proof (is_fresh assigned) as Hfresh.
    destruct (IH (<[fresh assigned :=
                      {| track_id := fresh assigned;
                         single_target_hypotheses := {[sth_id sth := sth]} |}]> tracks)
                 ({[fresh assigned]} ∪ assigned))
      as (tracks' & assigned' & Hrun & Hkeys' & Hassigned & Hnew).
    { rewrite dom_insert_L. now apply union_mono_l. }
    { intros id track. rewrite lookup_insert. case_decide as Hid.
      - intros [= <-]. now subst id.
      - apply Hkeys. }
    exists tracks', assigned'. split; [exact Hrun|]. split; [exact Hkeys'|].
    rewrite dom_insert_L in Hnew. rewrite Hassigned.
    exact (fresh_identifier_extends _ _ _ _ Hfresh Hdom Hnew).
Qed.

(** X10.  [get_targets_detected_for_first_time] makes all its tracks or
    none: it returns exactly when the call of [numpy_get_Kalman_gain]
    returns and so does every call of [detected_update] (no measurement, or
    a measurement model and an engine that answers in the shape of the
    mixture), and when it raises, the track factory has assigned no
    identifier. *)
Theorem get_targets_all_or_nothing self measurements clutter_intensity meas_model
  detection_probability assigned :
  ((exists tracks assigned',
       get_targets_detected_for_first_time GaussianDensity self measurements
         clutter_intensity meas_model detection_probability assigned
       = (Ok tracks, assigned'))
   <-> (exists gains,
          call_numpy_get_Kalman_gain GaussianDensity (intensity self) meas_model
          = Ok gains)
       /\ (measurements = []
           \/ (isinstance_MeasurementModel meas_model = true
               /\ Forall (likelihoods_fit GaussianDensity (intensity self) meas_model)
                    measurements)))
  /\ (forall e,
         returned (get_targets_detected_for_first_time GaussianDensity self
                     measurements clutter_intensity meas_model
                     detection_probability) assigned = Raise e ->
         after (get_targets_detected_for_first_time GaussianDensity self
                  measurements clutter_intensity meas_model
                  detection_probability) assigned = assigned).
Proof.
  split.
  - split.
    + intros (tracks & assigned' & Hrun). rewrite get_targets_unfold in Hrun.
      destruct (call_numpy_get_Kalman_gain _ _ _) as [gains|]; [|discriminate].
      split; [now exists gains|].
      destruct (comprehension _ _) as [sths|] eqn:Hsths; [|discriminate].
      apply comprehension_Forall2 in Hsths.
      destruct measurements as [|z0 measurements']; [now left|]. right.
      set (measurements := z0 :: measurements') in *.
      assert (forall i z, measurements !! i = Some z ->
                isinstance_MeasurementModel meas_model = true
                /\ likelihoods_fit GaussianDensity (intensity self) meas_model z)
        as Hall.
      { intros i z Hz.
        assert (seq 0 (length measurements) !! i = Some i) as Hi
          by (apply lookup_seq; split; [reflexivity|];
              now apply lookup_lt_Some in Hz).
        destruct (Forall2_lookup_l _ _ _ _ _ Hsths Hi) as (sth & _ & Hsth).
        unfold first_detection, getitem in Hsth. rewrite Hz in Hsth.
        cbn [mbind result_bind] in Hsth.
        eapply detected_update_Ok_inv, Hsth. }
      split.
      * now destruct (Hall 0 z0 eq_refl).
      * apply Forall_lookup_2. intros i z Hz. now destruct (Hall i z Hz).
    + intros [[gains Hgains] [-> | [Hmodel Hfit]]].
      * exists ∅, assigned. now rewrite get_targets_unfold, Hgains.
      * destruct (get_targets_returns GaussianDensity self measurements
                    clutter_intensity meas_model detection_probability assigned
                    Hmodel Hfit)
          as (tracks & assigned' & _ & Hrun & _).
        eauto.
  - intros e. unfold returned, after. rewrite get_targets_unfold.
    destruct (call_numpy_get_Kalman_gain _ _ _) as [gains|]; [|reflexivity].
    destruct (comprehension _ _) as [sths|] eqn:Hsths; [|reflexivity].
    pose proof (comprehension_Forall2 _ _ _ Hsths) as Hall.
    assert (length sths = length measurements) as Hlen
      by (apply Forall2_length in Hall; rewrite length_seq in Hall; lia).
    destruct (file_tracks_spec sths (seq 0 (length measurements)) sths) with
      (tracks := (∅ : gmap nat Track)) (assigned := assigned)
      as (tracks & assigned' & Hrun & _).
    { rewrite <- Hlen. apply seq_picks_all. }
    { rewrite dom_empty_L. set_solver. }
    rewrite Hrun. discriminate.
Qed.

(** X11.  Every track that [get_targets_detected_for_first_time] returns is
    filed under its own [track_id]; none of these identifiers was assigned
    before, and afterwards the assigned identifiers are the old ones and
    these. *)
Theorem get_targets_files_under_new_ids self measurements clutter_intensity
  meas_model detection_probability assigned tracks assigned' :
  get_targets_detected_for_first_time GaussianDensity self measurements
    clutter_intensity meas_model detection_probability assigned
  = (Ok tracks, assigned') ->
  (forall id track, tracks !! id = Some track -> track_id track = id)
  /\ dom tracks ∩ assigned = ∅
  /\ assigned' = assigned ∪ dom tracks.
Proof.
  intros Hrun. rewrite get_targets_unfold in Hrun.
  destruct (call_numpy_get_Kalman_gain _ _ _) as [gains|]; [|discriminate].
  destruct (comprehension _ _) as [sths|] eqn:Hsths; [|discriminate].
  pose proof (comprehension_Forall2 _ _ _ Hsths) as Hall.
  assert (length sths = length measurements) as Hlen
    by (apply Forall2_length in Hall; rewrite length_seq in Hall; lia).
  destruct (file_tracks_keys sths (seq 0 (length measurements)) sths) with
    (tracks := (∅ : gmap nat Track)) (assigned := assigned)
    as (tracks0 & assigned0 & Hrun0 & Hkeys & Hassigned & Hnew).
  { rewrite <- Hlen. apply seq_picks_all. }
  { rewrite dom_empty_L. set_solver. }
  { intros id track. now rewrite lookup_empty. }
  rewrite Hrun0 in Hrun. injection Hrun as <- <-.
  rewrite dom_empty_L in Hnew. auto.
Qed.

(** X12.  A [meas_model] that is no [MeasurementModel] reaches the engine
    before any assertion: what [numpy_get_Kalman_gain] raises on it is what
    [get_targets_detected_for_first_time] raises, whatever the
    measurements.  Only when the engine lets it pass does the assertion of
    [detected_update] raise [AssertionError], and that with at least one
    measurement: with none, the empty mapping is returned.  No identifier
    is assigned in any of these cases. *)
Theorem get_targets_without_model_or_measurement self measurements
  clutter_intensity meas_model detection_probability assigned :
  isinstance_MeasurementModel meas_model = false ->
  (forall e,
     numpy_get_Kalman_gain_raises GaussianDensity (intensity self) meas_model
     = Some e ->
     get_targets_detected_for_first_time GaussianDensity self measurements
       clutter_intensity meas_model detection_probability assigned
     = (Raise e, assigned))
  /\ (numpy_get_Kalman_gain_raises GaussianDensity (intensity self) meas_model
      = None ->
      (measurements <> [] ->
       get_targets_detected_for_first_time GaussianDensity self measurements
         clutter_intensity meas_model detection_probability assigned
       = (Raise AssertionError, assigned))
      /\ get_targets_detected_for_first_time GaussianDensity self []
           clutter_intensity meas_model detection_probability assigned
         = (Ok ∅, assigned)).
Proof.
  intros Hmodel. split.
  { intros e He. rewrite get_targets_unfold.
    unfold call_numpy_get_Kalman_gain. now rewrite Hmodel, He. }
  intros Hpass.
  assert (call_numpy_get_Kalman_gain GaussianDensity (intensity self) meas_model
          = Ok (numpy_get_Kalman_gain GaussianDensity (intensity self) meas_model))
    as Hgains by (unfold call_numpy_get_Kalman_gain; now rewrite Hmodel, Hpass).
  split; [|now rewrite get_targets_unfold, Hgains].
  intros Hne. rewrite get_targets_unfold, Hgains.
  destruct measurements as [|z measurements']; [done|].
  assert (first_detection GaussianDensity self (z :: measurements')
            clutter_intensity meas_model detection_probability 0
          = Raise AssertionError) as Hfirst.
  { unfold first_detection, getitem, detected_update.
    cbn [lookup list_lookup mbind result_bind]. now rewrite Hmodel. }
  change (seq 0 (length (z :: measurements')))
    with (0 :: seq 1 (length measurements')).
  cbn [comprehension]. now rewrite Hfirst.
Qed.

End FirstDetectionsFurther.

(** ** The Poisson intensity: weights, thresholds and lengths *)

Section IntensityFurther.
Context `{Collaborators}.
Implicit Types (self : PoissonRFS.t) (m : GaussianMixtureNumpy).

Import PoissonRFS.

Lemma np_log_one_minus_zero : np_log (Fin 1 - Fin 0) = Fin 0.
Proof.
  cbn [fsub fneg fadd]. rewrite np_log_positive by lra. f_equal.
  replace (1 + - 0)%R with 1%R by lra. apply ln_1.
Qed.

Lemma np_log_one_minus_one : np_log (Fin 1 - Fin 1) = NInf.
Proof. cbn [fsub fadd fneg np_log]. repeat case_decide; try reflexivity; lra. Qed.

Lemma state_eta self :
  mk {| means := means (intensity self);
        covs := covs (intensity self);
        weigths_log := weigths_log (intensity self) |} = self.
Proof. now destruct self as [[ms cs ws]]. Qed.

(** X13.  A missed detection with detection probability 0 leaves the
    intensity as it is; a prediction with survival probability 1 leaves the
    log-weights as they are and takes means and covariances from the
    engine. *)
Theorem neutral_probabilities self motion_model (density : DensityEngine) dt :
  undetected_update (Fin 0) self = (Ok tt, self)
  /\ predict motion_model (Fin 1) density dt self
     = (Ok tt,
        mk {| means := fst (density_predict_arrays density (means (intensity self))
                              (covs (intensity self)) motion_model dt);
              covs := snd (density_predict_arrays density (means (intensity self))
                             (covs (intensity self)) motion_model dt);
              weigths_log := weigths_log (intensity self) |}).
Proof.
  split.
  - unfold undetected_update, mbind, M_bind, get, put. cbn [fst snd].
    rewrite np_log_one_minus_zero, elementwise_id by apply fadd_zero_r.
    now rewrite state_eta.
  - unfold predict, mbind, M_bind, get, put. cbn [fst snd intensity means covs weigths_log].
    rewrite np_log_one, elementwise_id by apply fadd_zero_r.
    now destruct (density_predict_arrays _ _ _ _ _).
Qed.

Lemma take_rows_none {A} (mask : list bool) row (d : list A) :
  Forall (fun b => b = false) mask -> take_rows mask row d = [].
Proof.
  intros Hnone. revert d. induction Hnone as [|b mask -> _ IH]; intros d; simpl;
    [reflexivity | apply IH].
Qed.

Lemma count_true_none (mask : list bool) :
  Forall (fun b => b = false) mask -> count_true mask = 0.
Proof. unfold count_true. induction 1 as [|b mask -> _ IH]; simpl; auto. Qed.

Lemma filter_none {A} (f : A -> bool) (l : list A) :
  Forall (fun x => f x = false) l -> List.filter f l = [].
Proof. induction 1 as [|x l Hx _ IH]; simpl; [reflexivity|]. now rewrite Hx. Qed.

(** When no log-weight is above the threshold, [prune] leaves arrays of no
    rows. *)
Lemma prune_removes_all self threshold n :
  proper (intensity self) n -> n <> 1 ->
  Forall (fun w => fgt w threshold = false) (data (weigths_log (intensity self))) ->
  prune threshold self
  = (Ok tt,
     mk {| means := mk_ndarray (0 :: tail (shape (means (intensity self)))) [];
           covs := mk_ndarray (0 :: tail (shape (covs (intensity self)))) [];
           weigths_log := mk_ndarray [0] [] |}).
Proof.
  intros Hp Hn Hnone. rewrite (prune_proper _ _ n) by done. cbv zeta.
  assert (Forall (fun b => b = false)
            ((fun w => fgt w threshold) <$> data (weigths_log (intensity self))))
    as Hmask by (now apply Forall_fmap).
  now rewrite !take_rows_none, count_true_none, filter_none.
Qed.

Lemma fgt_nan_threshold (w : float) : fgt w NaN = false.
Proof. now destruct w. Qed.

Lemma fgt_infinite_threshold (w : float) : fgt w PInf = false.
Proof. now destruct w. Qed.

Lemma fgt_neg_infinity (t : float) : fgt NInf t = false.
Proof. now destruct t. Qed.

Lemma undetected_update_proper self detection_probability n :
  proper (intensity self) n ->
  proper (intensity (after (undetected_update detection_probability) self)) n.
Proof.
  intros (Hw & Hm & Hc & Hwm & Hwc & Hww).
  unfold proper, well_shaped in *. simpl. rewrite length_fmap. auto 10.
Qed.

(** X14.  A threshold of [nan] or of [+inf] is above no log-weight:
    [prune] then leaves no component. *)
Theorem prune_nan_or_infinity self threshold n :
  proper (intensity self) n -> n <> 1 ->
  threshold = NaN \/ threshold = PInf ->
  returned (prune threshold) self = Ok tt
  /\ PoissonRFS__len__ (after (prune threshold) self) = Ok 0
  /\ data (weigths_log (intensity (after (prune threshold) self))) = []
  /\ data (means (intensity (after (prune threshold) self))) = []
  /\ data (covs (intensity (after (prune threshold) self))) = [].
Proof.
  intros Hp Hn Ht. unfold returned, after.
  rewrite (prune_removes_all _ _ n); [now repeat split | done | done |].
  apply Forall_forall. intros w _.
  destruct Ht as [-> | ->]; [apply fgt_nan_threshold | apply fgt_infinite_threshold].
Qed.

(** X15.  After a missed detection with detection probability 1 every
    log-weight is [-inf], and [prune], at whatever threshold, leaves no
    component. *)
Theorem certain_detection_then_prune self threshold n :
  proper (intensity self) n -> n <> 1 ->
  log_values (weigths_log (intensity self)) ->
  Forall (fun w => w = NInf)
    (data (weigths_log (intensity (after (undetected_update (Fin 1)) self))))
  /\ returned (prune threshold) (after (undetected_update (Fin 1)) self) = Ok tt
  /\ PoissonRFS__len__
       (after (prune threshold) (after (undetected_update (Fin 1)) self))
     = Ok 0.
Proof.
  intros Hp Hn Hws.
  assert (Forall (fun w => w = NInf)
            (data (weigths_log (intensity (after (undetected_update (Fin 1)) self)))))
    as Hinf.
  { unfold after, undetected_update, mbind, M_bind, get, put.
    cbn [fst snd intensity weigths_log elementwise data].
    apply Forall_fmap. eapply Forall_impl; [exact Hws|]. intros w Hw.
    cbv [compose]. rewrite np_log_one_minus_one. now apply fadd_neg_infinity. }
  split; [exact Hinf|].
  pose proof (undetected_update_proper self (Fin 1) n Hp) as Hp'.
  set (missed := after (undetected_update (Fin 1)) self) in *.
  unfold returned. unfold after at 1.
  rewrite (prune_removes_all missed threshold n); [now split | done | done |].
  eapply Forall_impl; [exact Hinf|]. intros w ->. apply fgt_neg_infinity.
Qed.

(** X16.  On a mixture of other than one component [prune] returns and
    keeps exactly the components whose log-weight is above the threshold,
    in their order: the log-weights left are the old ones filtered, and
    there are no more of them than before. *)
Theorem prune_keeps_what_is_above self threshold n :
  proper (intensity self) n -> n <> 1 ->
  returned (prune threshold) self = Ok tt
  /\ data (weigths_log (intensity (after (prune threshold) self)))
     = List.filter (fun w => fgt w threshold) (data (weigths_log (intensity self)))
  /\ Forall (kept threshold)
       (data (weigths_log (intensity (after (prune threshold) self))))
  /\ exists k,
       PoissonRFS__len__ (after (prune threshold) self) = Ok k
       /\ k = length (List.filter (fun w => fgt w threshold)
                        (data (weigths_log (intensity self))))
       /\ k <= n.
Proof.
  intros Hp Hn. pose proof (proper_weights_length _ _ Hp) as Hlen.
  unfold returned, after. rewrite (prune_proper _ _ n) by done. cbv zeta.
  cbn [fst snd intensity weigths_log data].
  split; [reflexivity|]. split; [reflexivity|]. split.
  - apply List.Forall_forall. intros w Hin. now apply List.filter_In in Hin.
  - eexists. split; [reflexivity|].
    rewrite <- (take_rows_filter (fun w => fgt w threshold)).
    rewrite length_take_rows by (rewrite length_fmap; lia).
    split; [lia|]. rewrite <- Hlen.
    unfold count_true. rewrite <- (length_fmap (fun w => fgt w threshold)).
    apply List.filter_length_le.
Qed.


End IntensityFurther.

(** ** The Poisson intensity: one threshold after another *)

Section Thresholds.
Context `{Collaborators}.
Implicit Types (self : PoissonRFS.t).

Import PoissonRFS.

Lemma fgt_weaken (w t1 t2 : float) :
  fle t1 t2 = true -> fgt w t2 = true -> fgt w t1 = true.
Proof.
  destruct w as [| |x|], t1 as [| |y1|], t2 as [| |y2|]; simpl;
    try discriminate; try reflexivity.
  intros Hle%bool_decide_eq_true_1 Hgt%bool_decide_eq_true_1.
  apply bool_decide_eq_true_2. lra.
Qed.

Lemma filter_filter_weaker {A} (f1 f2 : A -> bool) (l : list A) :
  (forall x, f2 x = true -> f1 x = true) ->
  List.filter f2 (List.filter f1 l) = List.filter f2 l.
Proof.
  intros Himp. induction l as [|x l IH]; [reflexivity|]. simpl.
  destruct (f1 x) eqn:H1; simpl; rewrite IH; [reflexivity|].
  destruct (f2 x) eqn:H2; [|reflexivity]. apply Himp in H2. congruence.
Qed.

Lemma count_true_fmap {A} (f : A -> bool) (l : list A) :
  count_true (f <$> l) = length (List.filter f l).
Proof.
  unfold count_true. induction l as [|x l IH]; [reflexivity|].
  rewrite fmap_cons. simpl. destruct (f x); simpl; now rewrite IH.
Qed.

(** Selecting by a stricter mask among the rows that a weaker one selected
    is selecting by the stricter one. *)
Lemma take_rows_weaker {A B} (f1 f2 : A -> bool) (l : list A) row (d : list B) :
  (forall x, f2 x = true -> f1 x = true) ->
  length d = length l * row ->
  take_rows (f2 <$> List.filter f1 l) row (take_rows (f1 <$> l) row d)
  = take_rows (f2 <$> l) row d.
Proof.
  intros Himp. revert d. induction l as [|x l IH]; intros d Hlen; [reflexivity|].
  rewrite !fmap_cons. cbn [take_rows List.filter]. simpl in Hlen.
  assert (length (drop row d) = length l * row) as Hdrop
    by (rewrite length_drop; lia).
  destruct (f1 x) eqn:H1.
  - rewrite fmap_cons. cbn [take_rows].
    assert (length (take row d) = row) as Htake by (rewrite length_take; lia).
    rewrite take_app_length', drop_app_length' by (symmetry; exact Htake).
    now rewrite IH.
  - destruct (f2 x) eqn:H2; [apply Himp in H2; congruence|].
    cbn [app]. now rewrite IH.
Qed.

(** X18.  Pruning at a threshold and then at a higher one is pruning at
    the higher one, provided neither selects from a single component. *)
Theorem prune_rising_thresholds self (t1 t2 : float) n :
  proper (intensity self) n -> n <> 1 ->
  fle t1 t2 = true ->
  count_true ((fun w => fgt w t1) <$> data (weigths_log (intensity self))) <> 1 ->
  prune t2 (after (prune t1) self) = prune t2 self.
Proof.
  intros Hp Hn Hle Hk.
  pose proof (prune_proper_after self t1 n Hp Hn) as Hp1.
  pose proof (proper_weights_length _ _ Hp) as Hlen.
  rewrite (prune_proper (after (prune t1) self) t2 _ Hp1 Hk).
  rewrite (prune_proper self t2 n Hp Hn). cbv zeta.
  unfold after. rewrite (prune_proper self t1 n Hp Hn). cbv zeta.
  cbn [snd intensity means covs weigths_log shape data tail].
  destruct Hp as (Hw & [sm Hm] & [sc Hc] & Hwm & Hwc & Hww).
  unfold well_shaped in Hwm, Hwc. rewrite Hm in Hwm. rewrite Hc in Hwc.
  rewrite Hm, Hc. cbn [tail]. simpl in Hwm, Hwc.
  assert (forall w, fgt w t2 = true -> fgt w t1 = true) as Himp
    by (intros w; now apply fgt_weaken).
  rewrite !take_rows_weaker by (try exact Himp; lia).
  rewrite filter_filter_weaker by exact Himp.
  rewrite !count_true_fmap, filter_filter_weaker by exact Himp.
  reflexivity.
Qed.

End Thresholds.

(** ** Gating *)

Section RowsOfAMatrix.
Context {A : Type}.
Implicit Types (rows : list (list A)) (row d : list A).

Lemma concat_chunks row_length n d :
  length d = n * row_length -> concat (chunks row_length n d) = d.
Proof.
  revert d. induction n as [|n IH]; intros d Hlen; simpl in *.
  - now destruct d.
  - rewrite IH by (rewrite length_drop; lia). apply take_drop.
Qed.

Lemma expand_vector (m : nat) d : length d = m -> expand [m] [m] d = d.
Proof.
  intros Hlen. cbn [expand]. rewrite decide_True by reflexivity.
  change (size_of []) with 1.
  assert (forall l : list (list A), expand [] [] <$> l = l) as ->
    by (induction l as [|c l IH]; [reflexivity | now rewrite fmap_cons, IH]).
  apply concat_chunks. lia.
Qed.

Lemma as_row_vector (v : ndarray A) m :
  shape v = [m] -> as_row v m = Some (data v).
Proof.
  intros Hs. unfold as_row. rewrite Hs. destruct m as [|[|m]]; simpl.
  - reflexivity.
  - now rewrite app_nil_r.
  - now rewrite decide_True by reflexivity.
Qed.

Lemma replace_row rows m i row :
  Forall (fun r => length r = m) rows -> i < length rows ->
  take (i * m) (concat rows) ++ row ++ drop (i * m + m) (concat rows)
  = concat (<[i := row]> rows).
Proof.
  intros Hrows. revert i. induction Hrows as [|r rows Hr _ IH]; intros i Hi;
    simpl in Hi; [lia|].
  destruct i as [|i]; simpl.
  - now rewrite drop_app_length' by (symmetry; exact Hr).
  - rewrite take_app_add', <- Nat.add_assoc, drop_app_add' by (symmetry; exact Hr).
    rewrite <- app_assoc. f_equal. apply IH. lia.
Qed.

Lemma read_row rows m i row :
  Forall (fun r => length r = m) rows -> rows !! i = Some row ->
  take m (drop (i * m) (concat rows)) = row.
Proof.
  intros Hrows. revert i row.
  induction Hrows as [|r rows Hr Hall IH]; intros i row Hi; [discriminate|].
  destruct i as [|i]; simpl in *.
  - injection Hi as ->. rewrite drop_0.
    now rewrite take_app_length' by (symmetry; exact Hr).
  - rewrite drop_app_add' by (symmetry; exact Hr). now apply IH.
Qed.

Lemma length_concat_rows rows m :
  Forall (fun r => length r = m) rows -> length (concat rows) = length rows * m.
Proof. induction 1 as [|r rows Hr _ IH]; simpl; [reflexivity|]. rewrite length_app. lia. Qed.

End RowsOfAMatrix.

Section GatingProperties.
Context `{Collaborators}.
Context (view : ComponentView) (self : PoissonRFS.t)
  (measurements : list Observation) (density_handler : GatingHandler)
  (meas_model : MeasModel) (gating_size : float).

(** The mask that the handler reports for the component [ppp_idx]. *)
Let gate_of (ppp_idx : nat) : ndarray bool :=
  snd (ellipsoidal_gating density_handler
         (component_gaussian view (PoissonRFS.intensity self) ppp_idx)
         measurements meas_model gating_size).

Let m := length measurements.

Lemma setitem_row_matrix (rows : list (list bool)) n i (gate : ndarray bool) :
  length rows = n -> Forall (fun r => length r = m) rows -> i < n ->
  shape gate = [m] ->
  setitem_row (mk_ndarray [n; m] (concat rows)) i gate
  = Ok (mk_ndarray [n; m] (concat (<[i := data gate]> rows))).
Proof.
  intros Hn Hrows Hi Hgate. unfold setitem_row. cbn [shape data].
  rewrite decide_True by exact Hi. rewrite (as_row_vector _ _ Hgate).
  rewrite (replace_row rows m i) by (try exact Hrows; lia). reflexivity.
Qed.

Lemma getitem_row_matrix (rows : list (list bool)) n i row :
  length rows = n -> Forall (fun r => length r = m) rows ->
  rows !! i = Some row ->
  getitem_row (mk_ndarray [n; m] (concat rows)) i = Ok (mk_ndarray [m] row).
Proof.
  intros Hn Hrows Hi. unfold getitem_row. cbn [shape data].
  pose proof (lookup_lt_Some _ _ _ Hi) as Hlt.
  rewrite decide_True by lia.
  change (size_of [m]) with (m * 1). rewrite Nat.mul_1_r.
  now rewrite (read_row rows m i row).
Qed.

Lemma logical_or_vectors (used row : list bool) :
  length used = m -> length row = m ->
  np_logical_or (mk_ndarray [m] used) (mk_ndarray [m] row)
  = Ok (mk_ndarray [m] (zip_with orb used row)).
Proof.
  intros Hu Hr. unfold np_logical_or, broadcast2, broadcast_shapes, broadcast_to.
  cbn [shape data reverse rev_append broadcast_rev mbind option_bind fmap option_fmap
         option_map length replicate app].
  rewrite decide_True by reflexivity. cbn [fmap option_fmap option_map].
  rewrite Nat.sub_diag. cbn [replicate app].
  now rewrite !expand_vector.
Qed.

Lemma gating_loop_app range1 range2 matrix used :
  gating_loop view (PoissonRFS.intensity self) measurements density_handler
    meas_model gating_size (range1 ++ range2) matrix used
  = match gating_loop view (PoissonRFS.intensity self) measurements
            density_handler meas_model gating_size range1 matrix used with
    | Ok (matrix', used') =>
        gating_loop view (PoissonRFS.intensity self) measurements
          density_handler meas_model gating_size range2 matrix' used'
    | Raise e => Raise e
    end.
Proof.
  revert matrix used. induction range1 as [|i range1 IH]; intros matrix used;
    [reflexivity|].
  cbn [app gating_loop].
  destruct (ellipsoidal_gating _ _ _ _ _) as [subset mask].
  destruct (setitem_row _ _ _) as [matrix'|]; [|reflexivity].
  cbn [mbind result_bind].
  destruct (getitem_row _ _) as [row|]; [|reflexivity].
  cbn [mbind result_bind].
  destruct (np_logical_or _ _) as [used'|]; [|reflexivity].
  cbn [mbind result_bind]. apply IH.
Qed.

(** The loop over the components [k .. k + r - 1]: their rows are filled
    with the masks, the rows before and after are left as they are. *)
Lemma gating_loop_rows n r :
  forall k (before pending after_ : list (list bool)) (used : list bool),
    length before = k -> length pending = r ->
    length (before ++ pending ++ after_) = n ->
    Forall (fun row => length row = m) (before ++ pending ++ after_) ->
    length used = m ->
    Forall (gate_fits measurements) (gate_of <$> seq k r) ->
    gating_loop view (PoissonRFS.intensity self) measurements density_handler
      meas_model gating_size (seq k r)
      (mk_ndarray [n; m] (concat (before ++ pending ++ after_)))
      (mk_ndarray [m] used)
    = Ok (mk_ndarray [n; m]
            (concat (before ++ (data ∘ gate_of <$> seq k r) ++ after_)),
          mk_ndarray [m]
            (foldl (zip_with orb) used (data ∘ gate_of <$> seq k r))).
Proof.
  induction r as [|r IH]; intros k before pending after_ used Hk Hr Hn Hrows Hu Hfit.
  - destruct pending; [reflexivity | discriminate].
  - destruct pending as [|p pending]; [discriminate|].
    cbn [seq gating_loop]. rewrite !fmap_cons in *.
    apply Forall_cons in Hfit as [[Hshape Hlen] Hfit]. fold m in Hshape, Hlen.
    fold (gate_of k). destruct (ellipsoidal_gating _ _ _ _ _) as [subset mask] eqn:E.
    assert (gate_of k = mask) as Hmask by (unfold gate_of; now rewrite E).
    rewrite <- Hmask. clear E Hmask subset mask.
    rewrite !length_app in Hn. cbn [length app] in *.
    rewrite (setitem_row_matrix (before ++ p :: pending ++ after_) n k (gate_of k));
      [| rewrite !length_app; simpl; rewrite length_app; lia | exact Hrows | lia
       | exact Hshape].
    cbn [mbind result_bind].
    assert (<[k := data (gate_of k)]> (before ++ p :: pending ++ after_)
            = (before ++ [data (gate_of k)]) ++ pending ++ after_) as ->.
    { rewrite insert_app_r_alt by lia. rewrite Hk, Nat.sub_diag. cbn [insert list_insert].
      now rewrite <- app_assoc. }
    assert (Forall (fun row => length row = m)
              ((before ++ [data (gate_of k)]) ++ pending ++ after_)) as Hrows'.
    { apply Forall_app in Hrows as [Hbefore Hrest].
      apply Forall_cons in Hrest as [_ Hrest].
      apply Forall_app. split; [|exact Hrest].
      apply Forall_app. split; [exact Hbefore|]. now repeat constructor. }
    rewrite (getitem_row_matrix _ n k (data (gate_of k)));
      [| rewrite !length_app; simpl; lia | exact Hrows'
       | rewrite <- app_assoc; cbn [app]; now apply list_lookup_middle].
    cbn [mbind result_bind]. rewrite logical_or_vectors by done.
    cbn [mbind result_bind].
    rewrite (IH (S k));
      [| rewrite length_app; simpl; lia | lia | rewrite !length_app; simpl; lia
       | exact Hrows' | rewrite length_zip_with; lia | exact Hfit].
    cbn [foldl compose]. now rewrite <- !app_assoc.
Qed.

Lemma concat_replicate_rows {A} n k (x : A) :
  concat (replicate n (replicate k x)) = replicate (n * k) x.
Proof.
  induction n as [|n IH]; [reflexivity|]. simpl. now rewrite IH, replicate_add.
Qed.

Lemma length_or_rows (rows : list (list bool)) :
  forall used : list bool,
    length used = m -> Forall (fun row => length row = m) rows ->
    length (foldl (zip_with orb) used rows) = m.
Proof.
  induction rows as [|row rows IH]; intros used Hu Hrows; [exact Hu|].
  apply Forall_cons in Hrows as [Hrow Hrows]. cbn [foldl].
  apply IH; [rewrite length_zip_with; lia | exact Hrows].
Qed.

(** Whether a measurement is in some gate, read off the rows. *)
Lemma or_rows (rows : list (list bool)) :
  forall (used : list bool) j,
    length used = m -> Forall (fun row => length row = m) rows -> j < m ->
    length (foldl (zip_with orb) used rows) = m
    /\ (foldl (zip_with orb) used rows !! j = Some true
        <-> used !! j = Some true
            \/ exists row, row ∈ rows /\ row !! j = Some true).
Proof.
  induction rows as [|row rows IH]; intros used j Hu Hrows Hj.
  - simpl. split; [exact Hu|]. split; [auto|]. intros [?|(row & Hin & _)]; [done|].
    now apply elem_of_nil in Hin.
  - apply Forall_cons in Hrows as [Hrow Hrows]. cbn [foldl].
    destruct (IH (zip_with orb used row) j) as [Hlen Hiff];
      [rewrite length_zip_with; lia | exact Hrows | exact Hj |].
    split; [exact Hlen|]. rewrite Hiff. rewrite lookup_zip_with.
    destruct (lookup_lt_is_Some_2 used j) as [u Hu']; [lia|].
    destruct (lookup_lt_is_Some_2 row j) as [b Hb]; [lia|].
    rewrite Hu', Hb. cbn [mbind option_bind]. split.
    + intros [[= Hor]|(row' & Hin & Hrow')].
      * apply orb_true_iff in Hor as [->| ->]; [now left|].
        right. exists row. split; [apply elem_of_cons; now left | exact Hb].
      * right. exists row'. split; [apply elem_of_cons; now right | exact Hrow'].
    + intros [[= ->]|(row' & Hin & Hrow')]; [now left|].
      apply elem_of_cons in Hin as [->|Hin].
      * left. rewrite Hb in Hrow'. injection Hrow' as ->. now rewrite orb_true_r.
      * right. eauto.
Qed.

End GatingProperties.

Section GatingResults.
Context `{Collaborators}.
Context (view : ComponentView) (self : PoissonRFS.t)
  (measurements : list Observation) (density_handler : GatingHandler)
  (meas_model : MeasModel) (gating_size : float).

Lemma gates_lookup i gate :
  gates view self measurements density_handler meas_model gating_size !! i
  = Some gate ->
  i < mixture_size view (PoissonRFS.intensity self)
  /\ gate = snd (ellipsoidal_gating density_handler
                   (component_gaussian view (PoissonRFS.intensity self) i)
                   measurements meas_model gating_size).
Proof.
  unfold gates. rewrite list_lookup_fmap. intros Hi.
  destruct (seq _ _ !! i) as [i'|] eqn:Hseq; [|discriminate].
  apply lookup_seq in Hseq as [-> Hlt]. injection Hi as <-. auto.
Qed.

Lemma np_full_matrix n k :
  np_full [n; k] false
  = mk_ndarray [n; k] (concat ([] ++ replicate n (replicate k false) ++ [])).
Proof.
  unfold np_full. f_equal. cbn [app]. rewrite app_nil_r, concat_replicate_rows.
  change (size_of [n; k]) with (n * (k * 1)). now rewrite Nat.mul_1_r.
Qed.

Lemma np_full_vector k : np_full [k] false = mk_ndarray [k] (replicate k false).
Proof.
  unfold np_full. change (size_of [k]) with (k * 1). now rewrite Nat.mul_1_r.
Qed.

(** X19.  When the handler answers with one boolean per measurement,
    [gating] returns a matrix of one row per component and one column per
    measurement, whose rows are the masks of the handler, and a vector
    that marks a measurement exactly when some component gates it. *)
Theorem gating_marks_gated_measurements :
  Forall (gate_fits measurements)
    (gates view self measurements density_handler meas_model gating_size) ->
  exists matrix used,
    gating view self measurements density_handler meas_model gating_size
    = Ok (matrix, used)
    /\ shape matrix
       = [mixture_size view (PoissonRFS.intensity self); length measurements]
    /\ shape used = [length measurements]
    /\ length (data used) = length measurements
    /\ (forall i gate,
           gates view self measurements density_handler meas_model gating_size !! i
           = Some gate ->
           getitem_row matrix i = Ok gate)
    /\ (forall j,
           j < length measurements ->
           data used !! j = Some true
           <-> gated_by_some
                 (gates view self measurements density_handler meas_model
                    gating_size) j).
Proof.
  intros Hfit. set (n := mixture_size view (PoissonRFS.intensity self)).
  set (k := length measurements).
  set (gate_of := fun ppp_idx =>
         snd (ellipsoidal_gating density_handler
                (component_gaussian view (PoissonRFS.intensity self) ppp_idx)
                measurements meas_model gating_size)).
  set (rows := data ∘ gate_of <$> seq 0 n).
  assert (Forall (fun row => length row = k) rows) as Hrows.
  { unfold rows. rewrite list_fmap_compose. apply Forall_fmap.
    eapply Forall_impl; [exact Hfit|]. now intros gate [_ Hlen]. }
  assert (length rows = n) as Hn by (unfold rows; now rewrite length_fmap, length_seq).
  pose proof (gating_loop_rows view self measurements density_handler meas_model
                gating_size n n 0 [] (replicate n (replicate k false)) []
                (replicate k false)) as Hloop.
  cbn zeta in Hloop. fold k gate_of rows in Hloop.
  rewrite <- np_full_matrix, <- np_full_vector in Hloop.
  unfold gating. fold n k. cbv zeta. rewrite Hloop; clear Hloop.
  - eexists _, _. split; [reflexivity|]. cbn [shape data app].
    rewrite app_nil_r.
    assert (rows
            = data <$> gates view self measurements density_handler meas_model
                         gating_size) as Hgates
      by (unfold rows, gates; now rewrite list_fmap_compose).
    split; [reflexivity|]. split; [reflexivity|].
    split; [apply length_or_rows; [apply length_replicate | exact Hrows]|].
    split.
    + intros i gate Hi. pose proof (Forall_lookup_1 _ _ _ _ Hfit Hi) as [Hshape _].
      assert (rows !! i = Some (data gate)) as Hrow
        by (now rewrite Hgates, list_lookup_fmap, Hi).
      pose proof (getitem_row_matrix measurements rows n i (data gate)
                    Hn Hrows Hrow) as Hget.
      fold k in Hget, Hshape. rewrite Hget, <- Hshape. now rewrite ndarray_eta.
    + intros j Hj.
      destruct (or_rows measurements rows (replicate k false) j) as [_ Hiff];
        [apply length_replicate | exact Hrows | exact Hj |].
      rewrite Hiff, lookup_replicate_2 by exact Hj. unfold gated_by_some.
      rewrite Hgates. split.
      * intros [[=]|(row & Hin & Hrow)].
        apply list_elem_of_lookup in Hin as [i Hi].
        rewrite list_lookup_fmap in Hi.
        destruct (gates _ _ _ _ _ _ !! i) as [gate|] eqn:Hgate; [|discriminate].
        injection Hi as <-. eauto.
      * intros (i & gate & Hi & Hgate). right. exists (data gate).
        split; [|exact Hgate]. apply list_elem_of_lookup. exists i.
        now rewrite list_lookup_fmap, Hi.
  - reflexivity.
  - apply length_replicate.
  - cbn [app]. now rewrite app_nil_r, length_replicate.
  - cbn [app]. rewrite app_nil_r. apply Forall_replicate, length_replicate.
  - apply length_replicate.
  - exact Hfit.
Qed.

End GatingResults.

Section GatingErrors.
Context `{Collaborators}.
Context (view : ComponentView) (self : PoissonRFS.t)
  (measurements : list Observation) (density_handler : GatingHandler)
  (meas_model : MeasModel) (gating_size : float).

Lemma as_row_misfit {A} (v : ndarray A) k n :
  shape v = [k] -> k <> 1 -> k <> n -> as_row v n = None.
Proof.
  intros Hs H1 Hn. unfold as_row. rewrite Hs.
  destruct k as [|[|k]]; [| done |]; simpl; now rewrite decide_False.
Qed.

(** X20.  When the masks of the components before [i] have one boolean
    per measurement and the mask of the component [i] is a vector of
    another length (and not of length 1, which would be repeated), [gating]
    raises [ValueError]. *)
Theorem gating_misfit i gate k :
  gates view self measurements density_handler meas_model gating_size !! i
  = Some gate ->
  Forall (gate_fits measurements)
    (take i (gates view self measurements density_handler meas_model gating_size)) ->
  shape gate = [k] -> k <> 1 -> k <> length measurements ->
  gating view self measurements density_handler meas_model gating_size
  = Raise ValueError.
Proof.
  intros Hi Hfit Hshape Hk1 Hkm.
  destruct (gates_lookup _ _ _ _ _ _ _ _ Hi) as [Hlt Hgate].
  set (n := mixture_size view (PoissonRFS.intensity self)) in *.
  set (m := length measurements) in *.
  unfold gating. fold n m. cbv zeta.
  assert (seq 0 n = seq 0 i ++ i :: seq (S i) (n - S i)) as ->.
  { replace n with (i + S (n - S i)) at 1 by lia. now rewrite seq_app. }
  rewrite gating_loop_app.
  assert (np_full [n; m] false
          = mk_ndarray [n; m]
              (concat ([] ++ replicate i (replicate m false)
                          ++ replicate (n - i) (replicate m false)))) as ->.
  { rewrite np_full_matrix. cbn [app]. rewrite app_nil_r, <- replicate_add.
    do 3 f_equal. lia. }
  rewrite np_full_vector.
  pose proof (gating_loop_rows view self measurements density_handler meas_model
                gating_size n i 0 [] (replicate i (replicate m false))
                (replicate (n - i) (replicate m false)) (replicate m false))
    as Hloop.
  cbn zeta in Hloop. fold m in Hloop. rewrite Hloop; clear Hloop.
  - cbn [gating_loop].
    destruct (ellipsoidal_gating _ _ _ _ _) as [subset mask] eqn:E.
    assert (mask = gate) as -> by (now rewrite Hgate).
    unfold setitem_row. cbn [shape]. rewrite decide_True by exact Hlt.
    now rewrite (as_row_misfit gate k m).
  - reflexivity.
  - apply length_replicate.
  - cbn [app]. rewrite length_app, !length_replicate. lia.
  - cbn [app]. apply Forall_app; split; apply Forall_replicate, length_replicate.
  - apply length_replicate.
  - unfold gates in Hfit. fold n in Hfit.
    rewrite <- fmap_take, take_seq in Hfit.
    now replace (i `min` n) with i in Hfit by lia.
Qed.

End GatingErrors.

(** ** The further properties at work in the concrete setting *)

Section FurtherInstances.
Import PoissonRFS.
Local Open Scope R_scope.

Lemma pair_proper : proper (intensity Scenario.pair) 2.
Proof. unfold proper, well_shaped. simpl. repeat split; eauto. Qed.

Lemma pair_log_values : log_values (weigths_log (intensity Scenario.pair)).
Proof. repeat constructor. Qed.

Lemma undetected_update_errors_witness :
  0 <= 1 <= 1
  /\ (Bernoulli.undetected_update NumpyFloat64 Fixture.certain (Fin 1)
      = Raise ZeroDivisionError <-> NumpyFloat64 = PythonFloat /\ 1 = 1 /\ 1 = 1)
  /\ (Bernoulli.undetected_update NumpyFloat64 Fixture.certain (Fin 1)
      = Raise TypeError <-> ~ (NumpyFloat64 = PythonFloat /\ 1 = 1 /\ 1 = 1)).
Proof.
  assert (0 <= 1 <= 1) as Hone by lra.
  split; [exact Hone|].
  exact (undetected_update_errors NumpyFloat64 Scenario.nowhere 1 1 Hone Hone).
Defined.

Lemma detected_update_likelihood_neutral_witness :
  isinstance_MeasurementModel true = true
  /\ Bernoulli.detected_update_likelihood Fixture.certain
       Scenario.two_measurements true (Fin 1)
       Fixture.engine
     = Ok (predict_loglikelihood Fixture.engine Scenario.nowhere
              Scenario.two_measurements true).
Proof.
  split; [reflexivity|].
  apply (detected_update_likelihood_neutral Scenario.nowhere
           Scenario.two_measurements true Fixture.engine).
  reflexivity.
Defined.

Lemma detected_update_likelihood_of_nothing_witness :
  isinstance_MeasurementModel true = true
  /\ in_unit_interval Fixture.detection_probability
  /\ log_values (predict_loglikelihood Fixture.engine Scenario.nowhere
              Scenario.two_measurements true)
  /\ exists l,
       Bernoulli.detected_update_likelihood Scenario.nothing
         Scenario.two_measurements true Fixture.detection_probability
         Fixture.engine = Ok l
       /\ shape l = shape (predict_loglikelihood Fixture.engine Scenario.nowhere
              Scenario.two_measurements true)
       /\ length (data l)
          = length (data (predict_loglikelihood Fixture.engine Scenario.nowhere
              Scenario.two_measurements true))
       /\ Forall (fun x => x = NInf) (data l).
Proof.
  assert (in_unit_interval Fixture.detection_probability) as Hpd by (simpl; lra).
  assert (log_values (predict_loglikelihood Fixture.engine Scenario.nowhere
              Scenario.two_measurements true)) as Hls
    by (repeat constructor).
  split; [reflexivity|]. split; [exact Hpd|]. split; [exact Hls|].
  apply (detected_update_likelihood_of_nothing Scenario.nowhere
           Scenario.two_measurements true Fixture.detection_probability
           Fixture.engine);
    [reflexivity | exact Hpd | exact Hls].
Defined.

Lemma fixture_hypothesis :
  exists sth,
    detected_update Fixture.engine (0%nat, tt) (intensity Fixture.lone) true
      Fixture.detection_probability (Fin Fixture.clutter_intensity)
      Fixture.engine = Ok sth.
Proof.
  destruct (posterior_log_weights_fit Fixture.engine _ _ _
              Fixture.detection_probability fixture_fit) as [log_weights Hlw].
  pose proof (detected_update_returns Fixture.engine 0%nat tt _ true _
                (Fin Fixture.clutter_intensity) Fixture.engine log_weights
                eq_refl fixture_fit Hlw) as Hret.
  cbv zeta in Hret. eexists. exact Hret.
Qed.

Lemma detected_update_bookkeeping_witness :
  exists sth,
    detected_update Fixture.engine (0%nat, tt) (intensity Fixture.lone) true
      Fixture.detection_probability (Fin Fixture.clutter_intensity)
      Fixture.engine = Ok sth
    /\ cost sth = (- log_likelihood sth)%float
    /\ sth_id sth = 0%nat
    /\ meas_idx sth = 0%nat.
Proof.
  destruct fixture_hypothesis as [sth Hsth]. exists sth. split; [exact Hsth|].
  exact (detected_update_bookkeeping Fixture.engine 0%nat tt _ true _ _ _ sth Hsth).
Defined.

Lemma detected_update_undetectable_witness :
  isinstance_MeasurementModel true = true
  /\ likelihoods_fit Fixture.engine (intensity Fixture.lone) true tt
  /\ 0 < Fixture.clutter_intensity
  /\ log_values (weigths_log (intensity Fixture.lone))
  /\ log_values (loglikelihoods_of Fixture.engine (intensity Fixture.lone) tt true)
  /\ exists sth,
       detected_update Fixture.engine (0%nat, tt) (intensity Fixture.lone) true
         (Fin 0) (Fin Fixture.clutter_intensity) Fixture.engine = Ok sth
       /\ Bernoulli.existence_probability (bernoulli sth) = Fin 0
       /\ log_likelihood sth = Fin (ln Fixture.clutter_intensity).
Proof.
  assert (0 < Fixture.clutter_intensity) as Hc
    by (unfold Fixture.clutter_intensity; lra).
  assert (log_values (weigths_log (intensity Fixture.lone))) as Hws
    by (repeat constructor).
  assert (log_values (loglikelihoods_of Fixture.engine (intensity Fixture.lone) tt true))
    as Hls by (repeat constructor).
  split; [reflexivity|]. split; [exact fixture_fit|]. split; [exact Hc|].
  split; [exact Hws|]. split; [exact Hls|].
  exact (detected_update_undetectable Fixture.engine 0%nat tt _ true
           Fixture.clutter_intensity Fixture.engine eq_refl fixture_fit Hc Hws Hls).
Defined.


Lemma get_targets_files_under_new_ids_witness :
  exists tracks assigned',
    get_targets_detected_for_first_time Fixture.engine Fixture.lone [tt; tt]
      (Fin Fixture.clutter_intensity) true Fixture.detection_probability ∅
    = (Ok tracks, assigned')
    /\ (forall id track, tracks !! id = Some track -> track_id track = id)
    /\ dom tracks ∩ ∅ = ∅
    /\ assigned' = ∅ ∪ dom tracks.
Proof.
  destruct (get_targets_returns Fixture.engine Fixture.lone [tt; tt]
              (Fin Fixture.clutter_intensity) true Fixture.detection_probability ∅
              eq_refl)
    as (tracks & assigned' & _ & Hrun & _).
  { repeat (constructor; [exact fixture_fit|]). constructor. }
  exists tracks, assigned'. split; [exact Hrun|].
  exact (get_targets_files_under_new_ids Fixture.engine Fixture.lone [tt; tt] _ true
           _ ∅ tracks assigned' Hrun).
Defined.

Lemma prune_nan_or_infinity_witness :
  proper (intensity Scenario.pair) 2 /\ 2%nat <> 1%nat
  /\ (NaN = NaN \/ NaN = PInf)
  /\ returned (prune NaN) Scenario.pair = Ok tt
  /\ PoissonRFS__len__ (after (prune NaN) Scenario.pair) = Ok 0%nat
  /\ data (weigths_log (intensity (after (prune NaN) Scenario.pair))) = []
  /\ data (means (intensity (after (prune NaN) Scenario.pair))) = []
  /\ data (covs (intensity (after (prune NaN) Scenario.pair))) = [].
Proof.
  split; [exact pair_proper|]. split; [lia|]. split; [now left|].
  apply (prune_nan_or_infinity Scenario.pair NaN 2);
    [exact pair_proper | lia | now left].
Defined.

Lemma certain_detection_then_prune_witness :
  proper (intensity Scenario.pair) 2 /\ 2%nat <> 1%nat
  /\ log_values (weigths_log (intensity Scenario.pair))
  /\ Forall (fun w => w = NInf)
       (data (weigths_log (intensity (after (undetected_update (Fin 1))
                                        Scenario.pair))))
  /\ returned (prune (Fin (-1))) (after (undetected_update (Fin 1)) Scenario.pair)
     = Ok tt
  /\ PoissonRFS__len__
       (after (prune (Fin (-1))) (after (undetected_update (Fin 1)) Scenario.pair))
     = Ok 0%nat.
Proof.
  split; [exact pair_proper|]. split; [lia|]. split; [exact pair_log_values|].
  apply (certain_detection_then_prune Scenario.pair (Fin (-1)) 2);
    [exact pair_proper | lia | exact pair_log_values].
Defined.

Lemma prune_keeps_what_is_above_witness :
  proper (intensity Scenario.pair) 2 /\ 2%nat <> 1%nat
  /\ returned (prune (Fin (-1))) Scenario.pair = Ok tt
  /\ data (weigths_log (intensity (after (prune (Fin (-1))) Scenario.pair)))
     = List.filter (fun w => fgt w (Fin (-1)))
         (data (weigths_log (intensity Scenario.pair)))
  /\ Forall (kept (Fin (-1)))
       (data (weigths_log (intensity (after (prune (Fin (-1))) Scenario.pair))))
  /\ exists k,
       PoissonRFS__len__ (after (prune (Fin (-1))) Scenario.pair) = Ok k
       /\ k = length (List.filter (fun w => fgt w (Fin (-1)))
                        (data (weigths_log (intensity Scenario.pair))))
       /\ (k <= 2)%nat.
Proof.
  split; [exact pair_proper|]. split; [lia|].
  apply (prune_keeps_what_is_above Scenario.pair (Fin (-1)) 2);
    [exact pair_proper | lia].
Defined.


Lemma prune_rising_thresholds_witness :
  proper (intensity Scenario.pair) 2 /\ 2%nat <> 1%nat
  /\ fle NInf (Fin (-1)) = true
  /\ count_true ((fun w => fgt w NInf) <$> data (weigths_log (intensity Scenario.pair)))
     <> 1%nat
  /\ prune (Fin (-1)) (after (prune NInf) Scenario.pair)
     = prune (Fin (-1)) Scenario.pair.
Proof.
  assert (count_true ((fun w => fgt w NInf)
                        <$> data (weigths_log (intensity Scenario.pair))) <> 1%nat)
    as Hcount by (vm_compute; discriminate).
  split; [exact pair_proper|]. split; [lia|]. split; [reflexivity|].
  split; [exact Hcount|].
  apply (prune_rising_thresholds Scenario.pair NInf (Fin (-1)) 2);
    [exact pair_proper | lia | reflexivity | exact Hcount].
Defined.

Lemma wide_gates_fit :
  Forall (gate_fits Scenario.two_measurements)
    (gates Scenario.view Scenario.pair Scenario.two_measurements
       Scenario.wide_gates true (Fin 1)).
Proof. repeat (constructor; [split; reflexivity|]). constructor. Qed.

Lemma gating_marks_gated_measurements_witness :
  Forall (gate_fits Scenario.two_measurements)
    (gates Scenario.view Scenario.pair Scenario.two_measurements
       Scenario.wide_gates true (Fin 1))
  /\ exists matrix used,
       gating Scenario.view Scenario.pair Scenario.two_measurements
         Scenario.wide_gates true (Fin 1)
       = Ok (matrix, used)
       /\ shape matrix
          = [mixture_size Scenario.view (intensity Scenario.pair);
             length Scenario.two_measurements]
       /\ shape used = [length Scenario.two_measurements]
       /\ length (data used) = length Scenario.two_measurements
       /\ (forall i gate,
              gates Scenario.view Scenario.pair Scenario.two_measurements
                Scenario.wide_gates true (Fin 1) !! i
              = Some gate ->
              getitem_row matrix i = Ok gate)
       /\ (forall j,
              (j < length Scenario.two_measurements)%nat ->
              data used !! j = Some true
              <-> gated_by_some
                    (gates Scenario.view Scenario.pair Scenario.two_measurements
                       Scenario.wide_gates true (Fin 1)) j).
Proof.
  split; [exact wide_gates_fit|].
  exact (gating_marks_gated_measurements Scenario.view Scenario.pair
           Scenario.two_measurements Scenario.wide_gates true (Fin 1)
           wide_gates_fit).
Defined.

Lemma gating_misfit_witness :
  gates Scenario.view Scenario.pair Scenario.two_measurements
    Scenario.three_booleans true (Fin 1) !! 0%nat
  = Some (vector [true; false; true])
  /\ Forall (gate_fits Scenario.two_measurements)
       (take 0 (gates Scenario.view Scenario.pair Scenario.two_measurements
                  Scenario.three_booleans true (Fin 1)))
  /\ shape (vector [true; false; true]) = [3%nat]
  /\ 3%nat <> 1%nat
  /\ 3%nat <> length Scenario.two_measurements
  /\ gating Scenario.view Scenario.pair Scenario.two_measurements
       Scenario.three_booleans true (Fin 1)
     = Raise ValueError.
Proof.
  assert (3%nat <> length Scenario.two_measurements) as Hlen by (simpl; lia).
  split; [reflexivity|]. split; [constructor|]. split; [reflexivity|].
  split; [lia|]. split; [exact Hlen|].
  apply (gating_misfit Scenario.view Scenario.pair Scenario.two_measurements
           Scenario.three_booleans true (Fin 1) 0 (vector [true; false; true]) 3);
    [reflexivity | constructor | reflexivity | lia | exact Hlen].
Defined.

Lemma detected_updates_need_a_model_witness :
  isinstance_MeasurementModel false = false
  /\ Bernoulli.detected_update_state Fixture.doubtful tt false Fixture.engine
     = Raise AssertionError
  /\ Bernoulli.detected_update_likelihood Fixture.doubtful
       Scenario.two_measurements false Fixture.detection_probability
       Fixture.engine
     = Raise AssertionError.
Proof.
  split; [reflexivity|].
  destruct (detected_updates_need_a_model Fixture.doubtful tt
              Scenario.two_measurements false Fixture.detection_probability
              Fixture.engine) as (_ & _ & Hraise).
  exact (Hraise eq_refl).
Defined.

Lemma get_targets_without_model_or_measurement_witness :
  isinstance_MeasurementModel false = false
  /\ numpy_get_Kalman_gain_raises Scenario.strict_engine
       (intensity Fixture.lone) false = Some TypeError
  /\ numpy_get_Kalman_gain_raises Fixture.engine
       (intensity Fixture.lone) false = None
  /\ Scenario.two_measurements <> []
  /\ get_targets_detected_for_first_time Scenario.strict_engine Fixture.lone
       Scenario.two_measurements (Fin Fixture.clutter_intensity) false
       Fixture.detection_probability ∅
     = (Raise TypeError, ∅)
  /\ get_targets_detected_for_first_time Fixture.engine Fixture.lone
       Scenario.two_measurements (Fin Fixture.clutter_intensity) false
       Fixture.detection_probability ∅
     = (Raise AssertionError, ∅)
  /\ get_targets_detected_for_first_time Fixture.engine Fixture.lone
       [] (Fin Fixture.clutter_intensity) false
       Fixture.detection_probability ∅
     = (Ok ∅, ∅).
Proof.
  assert (Scenario.two_measurements <> []) as Hne by discriminate.
  split; [reflexivity|]. split; [reflexivity|]. split; [reflexivity|].
  split; [exact Hne|].
  destruct (get_targets_without_model_or_measurement Scenario.strict_engine
              Fixture.lone Scenario.two_measurements
              (Fin Fixture.clutter_intensity) false
              Fixture.detection_probability ∅ eq_refl) as [Hstrict _].
  destruct (get_targets_without_model_or_measurement Fixture.engine
              Fixture.lone Scenario.two_measurements
              (Fin Fixture.clutter_intensity) false
              Fixture.detection_probability ∅ eq_refl) as [_ Hpass].
  destruct (Hpass eq_refl) as [Hassert Hempty].
  split; [exact (Hstrict TypeError eq_refl)|].
  split; [exact (Hassert Hne) | exact Hempty].
Defined.

Lemma get_targets_all_or_nothing_witness :
  returned (get_targets_detected_for_first_time Fixture.engine Fixture.lone
              Scenario.two_measurements (Fin Fixture.clutter_intensity) false
              Fixture.detection_probability) ∅
  = Raise AssertionError
  /\ after (get_targets_detected_for_first_time Fixture.engine Fixture.lone
              Scenario.two_measurements (Fin Fixture.clutter_intensity) false
              Fixture.detection_probability) ∅
     = ∅.
Proof.
  assert (returned (get_targets_detected_for_first_time Fixture.engine Fixture.lone
                      Scenario.two_measurements (Fin Fixture.clutter_intensity)
                      false Fixture.detection_probability) ∅
          = Raise AssertionError) as Hraise by reflexivity.
  split; [exact Hraise|].
  destruct (get_targets_all_or_nothing Fixture.engine Fixture.lone
              Scenario.two_measurements (Fin Fixture.clutter_intensity) false
              Fixture.detection_probability ∅) as [_ Hnone].
  exact (Hnone AssertionError Hraise).
Defined.

End FurtherInstances.
